(** * Sniffr risk-report renderer: a shallow embedding of
      [src/services/infoimage.py] and of [create_report_text] from
      [src/services/twitter.py], with the properties of the report
      layout engine stated and proved over it.

    Python integers are [Z]; Python floats are IEEE binary64 values, which
    are the primitive [float]s of the standard library; Python strings are
    [string]s (token addresses are base58, names and levels are plain
    text).  Dictionaries read with [.get(key, default)] or [d[key]] are
    records of optional fields, [None] standing for an absent key.
    Pillow ([Image], [ImageDraw], [ImageFont]), [textwrap], [datetime] and
    [logging] are the external world: an image is the background it was
    created with plus the ordered list of drawing calls made on it, font
    metrics and [textwrap.wrap] are parameters of the renderer, and the
    clock, the font files, the log and the output file live in an explicit
    [world] threaded through a state-and-exception monad. *)

From Stdlib Require Import ZArith List String Ascii Bool Lia.
From Stdlib Require Import Floats Uint63 DecimalString.
Import ListNotations.

Local Open Scope string_scope.
Local Open Scope Z_scope.

(* ================================================================= *)
(** ** Python values and built-ins *)

Module Py.

(** The exceptions the modelled code can raise. *)
Inductive exn : Type :=
| UnboundLocalError (var : string)
| KeyError (key : string)
| IOError (msg : string).

Inductive result (A : Type) : Type :=
| Ok (a : A)
| Raise (e : exn).
Arguments Ok {A} a.
Arguments Raise {A} e.

Definition bind {A B} (r : result A) (k : A -> result B) : result B :=
  match r with
  | Ok a => k a
  | Raise e => Raise e
  end.

(** A [for] loop over a list whose body may raise; [s] holds the
    variables the body assigns. *)
Fixpoint for_each {A S} (body : S -> A -> result S) (l : list A) (s : S)
    : result S :=
  match l with
  | [] => Ok s
  | x :: l' => bind (body s x) (for_each body l')
  end.

(** [len(s)] *)
Definition len (s : string) : Z := Z.of_nat (String.length s).

(** [str(n)] for an integer, as used by f-strings. *)
Definition str (n : Z) : string := NilZero.string_of_int (Z.to_int n).

(** [s.upper()] on the ASCII letters. *)
Definition upper_char (c : ascii) : ascii :=
  let n := nat_of_ascii c in
  if (Nat.leb 97 n && Nat.leb n 122)%bool then ascii_of_nat (n - 32) else c.

Fixpoint upper (s : string) : string :=
  match s with
  | EmptyString => EmptyString
  | String c s' => String (upper_char c) (upper s')
  end.

(** Truth value of a string: [if s:] holds for the non-empty ones. *)
Definition truthy (s : string) : bool :=
  match s with
  | EmptyString => false
  | String _ _ => true
  end.

(** Slice bounds: a negative index counts from the end, and every index
    is clamped into [0 .. n]. *)
Definition clamp (n i : Z) : Z :=
  if i <? 0 then Z.max 0 (n + i) else Z.min i n.

(** [s[start:stop]]; [None] is an omitted bound. *)
Definition slice (s : string) (start stop : option Z) : string :=
  let n := len s in
  let lo := match start with None => 0 | Some i => clamp n i end in
  let hi := match stop with None => n | Some j => clamp n j end in
  substring (Z.to_nat lo) (Z.to_nat (hi - lo)) s.

(** [l[:n]] on a list, for [n >= 0]. *)
Definition take {A} (n : Z) (l : list A) : list A := firstn (Z.to_nat n) l.

(** [range(n)] *)
Definition range (n : Z) : list Z := map Z.of_nat (seq 0 (Z.to_nat n)).

(** [enumerate(l)] *)
Definition enumerate {A} (l : list A) : list (Z * A) :=
  combine (range (Z.of_nat (List.length l))) l.

(** [d.get(key, default)] on an optional field. *)
Definition get {A} (field : option A) (default : A) : A :=
  match field with
  | Some v => v
  | None => default
  end.

(** [d[key]] on an optional field. *)
Definition item {A} (key : string) (field : option A) : result A :=
  match field with
  | Some v => Ok v
  | None => Raise (KeyError key)
  end.

(** Reading a local variable of the enclosing function: a local that no
    executed statement has bound yet raises [UnboundLocalError]. *)
Definition load_local {A} (var : string) (binding : option A) : result A :=
  match binding with
  | Some v => Ok v
  | None => Raise (UnboundLocalError var)
  end.

(** An integer used in float arithmetic.  The integers of the renderer
    (pixel coordinates, scores, small constants) are far below [2^53],
    where the conversion is exact. *)
Definition float_of_int (z : Z) : float :=
  if z <? 0 then PrimFloat.opp (PrimFloat.of_uint63 (Uint63.of_Z (- z)))
  else PrimFloat.of_uint63 (Uint63.of_Z z).

(** [a / b] on two integers: true division, a float.  The renderer
    divides by 100, 20, 15, 10 and by the canvas height, which is at
    least 800, so [ZeroDivisionError] does not arise. *)
Definition truediv (a b : Z) : float :=
  PrimFloat.div (float_of_int a) (float_of_int b).

(** [int(x)] on a float: truncation toward zero.  Infinities and NaN,
    on which Python raises, do not arise from the renderer's arithmetic
    and are sent to 0. *)
Definition int (x : float) : Z :=
  match Prim2SF x with
  | S754_finite s m e =>
      let mag := if 0 <=? e then Z.shiftl (Z.pos m) e
                 else Z.shiftr (Z.pos m) (- e) in
      if s then - mag else mag
  | _ => 0
  end.

End Py.

Import Py.

Declare Scope py_scope.
Delimit Scope py_scope with py.
Notation "x <- c ;; k" := (Py.bind c (fun x => k))
(at level 61, c at next level, right associativity) : py_scope.

(* ================================================================= *)
(** ** Pillow: fonts, drawing calls, images *)

Module PIL.

Definition color : Type := Z * Z * Z.
Definition bbox : Type := Z * Z * Z * Z.

(** A font handle: a TrueType face at a size, or the built-in bitmap
    font returned by [ImageFont.load_default()]. *)
Inductive font : Type :=
| TrueType (file : string) (size : Z)
| DefaultFont.

(** The calls made on an [ImageDraw] object, with their arguments. *)
Inductive draw_op : Type :=
| Arc (box : bbox) (start end_ : float) (fill : color) (width : Z)
| Line (x0 y0 x1 y1 : Z) (fill : color)
| Rectangle (box : bbox) (outline : Z * Z * Z * Z) (width : Z)
| RoundedRectangle (x0 y0 x1 y1 : Z) (radius : Z) (fill : color)
| Text (x y : Z) (text : string) (f : font) (fill : color).

(** An RGB image: its size, the colour it was created with, and the
    drawing calls applied to it, oldest first. *)
Record image : Type := {
  size : Z * Z;
  background : color;
  ops : list draw_op
}.

End PIL.

Import PIL.

(* ================================================================= *)
(** ** The world the renderer runs in *)

Module World.

(** A reading of the wall clock, the value of [datetime.now()]. *)
Record datetime : Type := {
  year : Z; month : Z; day : Z;
  hour : Z; minute : Z; second : Z
}.

Inductive log_level : Type := INFO | WARNING | ERROR.

(** One record of the [logging] module; [cause] is the exception
    interpolated into the message, if any. *)
Record log_record : Type := {
  levelname : log_level;
  message : string;
  cause : option exn
}.

(** Everything outside the renderer's own locals.  [font_files] tells
    which font files FreeType can open; [canvases] lists the sizes of the
    images [Image.new] has created so far, oldest first; [disk] is the
    file system, most recent write first; [log] is the log, oldest first. *)
Record world : Type := {
  clock : datetime;
  font_files : string -> bool;
  canvases : list (Z * Z);
  disk : list (string * image);
  log : list log_record
}.

(** Computations that read and change the world and may raise. *)
Definition M (A : Type) : Type := world -> result A * world.

Definition ret {A} (a : A) : M A := fun w => (Ok a, w).

Definition raise {A} (e : exn) : M A := fun w => (Raise e, w).

Definition bind {A B} (c : M A) (k : A -> M B) : M B :=
  fun w =>
    match c w with
    | (Ok a, w') => k a w'
    | (Raise e, w') => (Raise e, w')
    end.

(** A pure computation that may raise, run inside [M]. *)
Definition lift {A} (r : result A) : M A := fun w => (r, w).

(** [try: body  except Exception as e: handler(e)] *)
Definition try_except {A} (body : M A) (handler : exn -> M A) : M A :=
  fun w =>
    match body w with
    | (Ok a, w') => (Ok a, w')
    | (Raise e, w') => handler e w'
    end.

(** [try: body  except IOError: handler]; other exceptions pass through. *)
Definition try_except_IOError {A} (body : M A) (handler : M A) : M A :=
  fun w =>
    match body w with
    | (Raise (IOError _), w') => handler w'
    | other => other
    end.

Definition emit (r : log_record) : M unit :=
  fun w =>
    (Ok tt, {| clock := clock w; font_files := font_files w;
               canvases := canvases w; disk := disk w;
               log := (log w ++ [r])%list |}).

Definition logging_info (msg : string) : M unit :=
  emit {| levelname := INFO; message := msg; cause := None |}.

Definition logging_warning (msg : string) : M unit :=
  emit {| levelname := WARNING; message := msg; cause := None |}.

(** [logging.error(f"msg{e}")] *)
Definition logging_error (msg : string) (e : exn) : M unit :=
  emit {| levelname := ERROR; message := msg; cause := Some e |}.

(** A decimal number left-padded with zeros to [digits] places. *)
Definition zero_pad (digits : nat) (n : Z) : string :=
  let s := str n in
  (String.concat "" (repeat "0" (digits - String.length s)) ++ s)%string.

(** [d.strftime("%Y-%m-%d %H:%M:%S UTC")] *)
Definition strftime (d : datetime) : string :=
  (zero_pad 4 (year d) ++ "-" ++ zero_pad 2 (month d) ++ "-"
   ++ zero_pad 2 (day d) ++ " " ++ zero_pad 2 (hour d) ++ ":"
   ++ zero_pad 2 (minute d) ++ ":" ++ zero_pad 2 (second d) ++ " UTC")%string.

(** [datetime.now()] *)
Definition datetime_now : M datetime := fun w => (Ok (clock w), w).

(** [Image.new('RGB', size, color=color)] *)
Definition Image_new (sz : Z * Z) (c : color) : M image :=
  fun w =>
    (Ok {| size := sz; background := c; ops := [] |},
     {| clock := clock w; font_files := font_files w;
        canvases := (canvases w ++ [sz])%list; disk := disk w;
        log := log w |}).

(** [image.save(path)] *)
Definition Image_save (img : image) (path : string) : M unit :=
  fun w =>
    (Ok tt,
     {| clock := clock w; font_files := font_files w;
        canvases := canvases w; disk := (path, img) :: disk w;
        log := log w |}).

(** [ImageFont.truetype(file, size)]: [IOError] when the file cannot be
    opened. *)
Definition ImageFont_truetype (file : string) (sz : Z) : M font :=
  fun w =>
    if font_files w file then (Ok (TrueType file sz), w)
    else (Raise (IOError "cannot open resource"), w).

(** [ImageFont.load_default()] *)
Definition ImageFont_load_default : M font := ret DefaultFont.

(** The file found at [path], if any. *)
Fixpoint read_file (d : list (string * image)) (path : string) : option image :=
  match d with
  | [] => None
  | (p, img) :: d' => if String.eqb p path then Some img else read_file d' path
  end.

End World.

Import World.

Declare Scope io_scope.
Delimit Scope io_scope with io.
Notation "x <- c ;; k" := (World.bind c (fun x => k))
  (at level 61, c at next level, right associativity) : io_scope.
Notation "c ;;; k" := (World.bind c (fun _ => k))
  (at level 61, right associativity) : io_scope.

(* ================================================================= *)
(** ** The data model: reports and risk findings *)

Module Risk.

(** One entry of [report["risks"]]: a dictionary with the keys
    ["name"], ["level"], ["value"] and ["score"], each possibly absent. *)
Record t : Type := {
  name : option string;
  level : option string;
  value : option string;
  score : option Z
}.

End Risk.

Module Report.

(** The [report_data] dictionary, as built by [get_tokenreport]. *)
Record t : Type := {
  normalized_score : option Z;
  risks : option (list Risk.t)
}.

End Report.

(* ================================================================= *)
(** ** [infoimage.py] *)

Module Infoimage.

(** [draw_progress_ring(draw, center, radius, thickness, score, color)]:
    the two [draw.arc] calls it makes, in order. *)
Definition draw_progress_ring (center : Z * Z) (radius thickness score : Z)
    (c : color) : list draw_op :=
  let start_angle := 90 in
  let end_angle :=
    PrimFloat.sub (float_of_int 90)
                  (PrimFloat.mul (truediv score 100) (float_of_int 360)) in
  let box := (fst center - radius, snd center - radius,
              fst center + radius, snd center + radius) in
  [ Arc box (float_of_int 0) (float_of_int 360) (100, 100, 100) thickness;
    Arc box (float_of_int start_angle) end_angle c thickness ].

(** The four logical fonts of the report. *)
Record fontset : Type := {
  title_font : font;
  header_font : font;
  normal_font : font;
  small_font : font
}.

(** Lines 33-43: the four TrueType fonts, or the built-in font for all
    four when a load raises [IOError]. *)
Definition load_fonts : M fontset :=
  try_except_IOError
    (t <- ImageFont_truetype "DejaVuSans-Bold.ttf" 50 ;;
     h <- ImageFont_truetype "DejaVuSans-Bold.ttf" 36 ;;
     n <- ImageFont_truetype "DejaVuSans.ttf" 28 ;;
     s <- ImageFont_truetype "DejaVuSans.ttf" 20 ;;
     ret {| title_font := t; header_font := h;
            normal_font := n; small_font := s |})%io
    (logging_warning "DejaVuSans fonts not found, using default font" ;;;
     t <- ImageFont_load_default ;;
     h <- ImageFont_load_default ;;
     n <- ImageFont_load_default ;;
     s <- ImageFont_load_default ;;
     ret {| title_font := t; header_font := h;
            normal_font := n; small_font := s |})%io.

(** Base image dimensions, palette, margins and spacing (lines 27-59). *)
Definition width : Z := 1200.
Definition min_height : Z := 800.

Definition white : color := (240, 240, 240).
Definition light_gray : color := (180, 180, 180).
Definition yellow : color := (255, 200, 0).
Definition red : color := (255, 100, 100).
Definition green : color := (100, 200, 150).
Definition blue : color := (120, 180, 255).

Definition left_margin : Z := 50.
Definition right_margin : Z := 50.
Definition top_margin : Z := 40.
Definition bottom_margin : Z := 40.
Definition vertical_spacing : Z := 15.
Definition content_width : Z := width - left_margin - right_margin.

Definition title_text : string := "Token Risk Report".
Definition circle_radius : Z := 60.
Definition circle_height : Z := circle_radius * 2.
Definition disclaimer_text : string :=
  "This report is for informational purposes only. Do your own research.".
Definition watermark_text : string := "Powered by Sniffr".

(** Lines 71-74: the address as the image shows it. *)
Definition short_address (token_address : string) : string :=
  if len token_address >? 20
  then slice token_address None (Some 6) ++ "..."
       ++ slice token_address (Some (-6)) None
  else token_address.

(** Line 90: the risk-level label of a normalised score. *)
Definition risk_level_label (score : Z) : string :=
  if score >? 66 then "HIGH RISK"
  else if score >? 33 then "MEDIUM RISK"
  else "LOW RISK".

(** Line 165: the colour of the gauge, the score and the label. *)
Definition score_color (score : Z) : color :=
  if score >? 66 then red
  else if score >? 33 then yellow
  else green.

(** Line 185: the colour of one finding, from its upper-cased level. *)
Definition level_color (risk_level : string) : color :=
  if String.eqb risk_level "DANGER" then red
  else if String.eqb risk_level "WARNING" then yellow
  else blue.

(** Lines 101-103 and 199-201: the level line of one finding. *)
Definition level_line (risk_level risk_value : string) : string :=
  let risk_text := "Level: " ++ risk_level in
  if truthy risk_value then risk_text ++ " (" ++ risk_value ++ ")"
  else risk_text.

(** Lines 138-140: the colour of scanline [y] of the background. *)
Definition gradient_color (y final_height : Z) : color :=
  let t := truediv y final_height in
  (int (PrimFloat.add (float_of_int 30) (PrimFloat.mul t (float_of_int 20))),
   int (PrimFloat.add (float_of_int 30) (PrimFloat.mul t (float_of_int 40))),
   int (PrimFloat.add (float_of_int 40) (PrimFloat.mul t (float_of_int 60)))).

(** Lines 137-141: one [draw.line] per scanline. *)
Definition gradient (final_height : Z) : list draw_op :=
  map (fun y => Line 0 y width y (gradient_color y final_height))
      (range final_height).

Section Renderer.

(** [draw.textbbox((0, 0), text, font=font)]: the bounding box
    [(left, top, right, bottom)] of one line of text. *)
Variable textbbox : font -> string -> bbox.

(** [textwrap.wrap(text, width=width)] *)
Variable wrap : string -> Z -> list string.

(** [bbox[3] - bbox[1]] and [bbox[2] - bbox[0]] of a text's box. *)
Definition text_height (f : font) (text : string) : Z :=
  let '(_, y0, _, y1) := textbbox f text in y1 - y0.

Definition text_width (f : font) (text : string) : Z :=
  let '(x0, _, x1, _) := textbbox f text in x1 - x0.

(** Lines 106-110 and, word for word, 188-192: the font and the wrapped
    lines of the numbered name of finding [i]. *)
Definition wrap_risk_name (fs : fontset) (i : Z) (risk_name : string)
    : font * list string :=
  let risk_name_font := normal_font fs in
  let wrapped_name :=
    wrap (str (i + 1) ++ ". " ++ risk_name) (int (truediv content_width 20)) in
  if Z.of_nat (List.length wrapped_name) >? 2
  then (small_font fs,
        wrap (str (i + 1) ++ ". " ++ risk_name)
             (int (truediv content_width 15)))
  else (risk_name_font, wrapped_name).

(** Lines 111-113, 125-127: a loop adding each line's height plus 5. *)
Definition add_line_heights (f : font) (lines : list string) (y_position : Z)
    : Z :=
  fold_left (fun y line => y + (text_height f line + 5)) lines y_position.

(** Lines 98-120, one turn of the measuring loop [for risk in risks].
    [i] is the binding of the function's local variable [i] at that
    point; the loop carries [y_position] and [risk_level], the two locals
    it assigns that are read after it. *)
Definition measure_risk (fs : fontset) (i : option Z) (st : Z * string)
    (risk : Risk.t) : result (Z * string) :=
  let y_position := fst st in
  let risk_name := get (Risk.name risk) "Unknown Risk" in
  let risk_level := upper (get (Risk.level risk) "unknown") in
  let risk_value := get (Risk.value risk) "" in
  let risk_text := level_line risk_level risk_value in
  (i' <- load_local "i" i ;;
   let '(risk_name_font, wrapped_name) := wrap_risk_name fs i' risk_name in
   let y_position := add_line_heights risk_name_font wrapped_name y_position in
   let y_position := y_position + (text_height (normal_font fs) risk_text + 5) in
   let y_position := y_position + (30 + vertical_spacing) in
   Ok (y_position, risk_level))%py.

(** The locals of [create_report_image] that the measuring half (lines
    61-129) leaves for the drawing half. *)
Record frame : Type := {
  title_height : Z;
  address_text : string;
  address_height : Z;
  current_time : string;
  timestamp_height : Z;
  score : Z;
  risk_level : string;
  risk_label_height : Z;
  risks : list Risk.t;
  y_position : Z
}.

(** Lines 61-129: the measure pass.  No statement before line 180 binds
    [i], so the measuring loop runs with [i] unbound. *)
Definition measure_pass (fs : fontset) (now : string)
    (report_data : Report.t) (token_address : string) : result frame :=
  let y_position := top_margin in
  let title_height := text_height (title_font fs) title_text in
  let y_position := y_position + (title_height + vertical_spacing) in
  let address_text := "Address: " ++ short_address token_address in
  let address_height := text_height (normal_font fs) address_text in
  let y_position := y_position + (address_height + vertical_spacing) in
  let timestamp_height :=
    text_height (small_font fs) ("Generated: " ++ now) in
  let y_position := y_position + (timestamp_height + vertical_spacing) in
  let score := get (Report.normalized_score report_data) 0 in
  let risk_level := risk_level_label score in
  let risk_label_height := text_height (header_font fs) risk_level in
  let y_position :=
    y_position
    + (Z.max circle_height risk_label_height + vertical_spacing + 30) in
  let risks := take 3 (get (Report.risks report_data) []) in
  (st <- for_each (measure_risk fs None) risks (y_position, risk_level) ;;
   let y_position := fst st in
   let risk_level := snd st in
   let wrapped_disclaimer :=
     wrap disclaimer_text (int (truediv content_width 10)) in
   let y_position :=
     add_line_heights (small_font fs) wrapped_disclaimer y_position in
   let y_position := y_position + bottom_margin in
   Ok {| title_height := title_height;
         address_text := address_text;
         address_height := address_height;
         current_time := now;
         timestamp_height := timestamp_height;
         score := score;
         risk_level := risk_level;
         risk_label_height := risk_label_height;
         risks := risks;
         y_position := y_position |})%py.

(** Lines 193-196: the lines of a name, drawn top to bottom. *)
Definition draw_name_lines (f : font) (lines : list string)
    (st : list draw_op * Z) : list draw_op * Z :=
  fold_left
    (fun st line =>
       ((fst st ++ [Text (left_margin + 20) (snd st) line f white])%list,
        snd st + (text_height f line + 5)))
    lines st.

(** Lines 181-212, one turn of the drawing loop
    [for i, risk in enumerate(risks)]. *)
Definition draw_risk (fs : fontset) (st : list draw_op * Z)
    (entry : Z * Risk.t) : list draw_op * Z :=
  let '(i, risk) := entry in
  let risk_name := get (Risk.name risk) "Unknown Risk" in
  let risk_level := upper (get (Risk.level risk) "unknown") in
  let risk_value := get (Risk.value risk) "" in
  let risk_score := get (Risk.score risk) 0 in
  let level_color := level_color risk_level in
  let '(risk_name_font, wrapped_name) := wrap_risk_name fs i risk_name in
  let '(canvas, y_position) := draw_name_lines risk_name_font wrapped_name st in
  let risk_text := level_line risk_level risk_value in
  let canvas :=
    (canvas ++ [Text (left_margin + 40) y_position risk_text
                     (normal_font fs) level_color])%list in
  let y_position := y_position + (text_height (normal_font fs) risk_text + 5) in
  let bar_width := Z.min (content_width - 100) (risk_score * 4) in
  let canvas :=
    (canvas ++ [RoundedRectangle (left_margin + 40) (y_position + 10)
                                 (left_margin + 40 + bar_width)
                                 (y_position + 30) 5 level_color])%list in
  let y_position := y_position + (40 + vertical_spacing) in
  (canvas, y_position).

(** Lines 214-222: the disclaimer, 25 pixels per line from a start fixed
    by the canvas height. *)
Definition draw_disclaimer (fs : fontset) (final_height : Z)
    (canvas : list draw_op) : list draw_op :=
  let wrapped_disclaimer :=
    wrap disclaimer_text (int (truediv content_width 10)) in
  let disclaimer_y :=
    final_height - bottom_margin
    - Z.of_nat (List.length wrapped_disclaimer) * 25 in
  fst (fold_left
         (fun st line =>
            let line_width := text_width (small_font fs) line in
            ((fst st ++ [Text (width - right_margin - line_width) (snd st)
                              line (small_font fs) light_gray])%list,
             snd st + 25))
         wrapped_disclaimer (canvas, disclaimer_y)).

(** Lines 136-228: the draw pass on the final canvas.  It returns the
    drawing calls in order and the value of [y_position] it ends with. *)
Definition draw_pass (fs : fontset) (fr : frame) (final_height : Z)
    : list draw_op * Z :=
  let canvas := gradient final_height in
  let canvas :=
    (canvas ++ [Rectangle (10, 10, width - 10, final_height - 10)
                          (255, 255, 255, 50) 2])%list in
  let y_position := top_margin in
  let canvas :=
    (canvas ++ [Text (left_margin + 2) (y_position + 2) title_text
                     (title_font fs) (50, 50, 50);
                Text left_margin y_position title_text
                     (title_font fs) white])%list in
  let y_position := y_position + (title_height fr + vertical_spacing) in
  let canvas :=
    (canvas ++ [Text left_margin y_position (address_text fr)
                     (normal_font fs) light_gray])%list in
  let y_position := y_position + (address_height fr + vertical_spacing) in
  let stamp := "Generated: " ++ current_time fr in
  let stamp_width := text_width (small_font fs) stamp in
  let canvas :=
    (canvas ++ [Text (width - right_margin - stamp_width) y_position stamp
                     (small_font fs) light_gray])%list in
  let y_position := y_position + (timestamp_height fr + vertical_spacing) in
  let score_color := score_color (score fr) in
  let circle_center :=
    (left_margin + circle_radius + 20, y_position + circle_radius) in
  let canvas :=
    (canvas ++ draw_progress_ring circle_center circle_radius 10 (score fr)
                                  score_color)%list in
  let score_text := str (score fr) in
  let w := text_width (header_font fs) score_text in
  let h := text_height (header_font fs) score_text in
  let canvas :=
    (canvas ++ [Text (fst circle_center - w / 2) (snd circle_center - h / 2)
                     score_text (header_font fs) score_color;
                Text (left_margin + circle_radius * 2 + 60)
                     (y_position + circle_radius - risk_label_height fr / 2)
                     (risk_level fr) (header_font fs) score_color])%list in
  let y_position := y_position + (circle_height + vertical_spacing + 30) in
  let canvas :=
    (canvas ++ [Text left_margin y_position "Top Risks:"
                     (header_font fs) white])%list in
  let y_position := y_position + (risk_label_height fr + vertical_spacing) in
  let '(canvas, y_position) :=
    fold_left (draw_risk fs) (enumerate (risks fr)) (canvas, y_position) in
  let canvas := draw_disclaimer fs final_height canvas in
  let canvas :=
    (canvas ++ [Text left_margin (final_height - bottom_margin - 20)
                     watermark_text (small_font fs) light_gray])%list in
  (canvas, y_position).

(** Lines 29-233 with the fonts in hand: measure, size the canvas, draw,
    save. *)
Definition render (fs : fontset) (report_data : Report.t)
    (token_address : string) : M string :=
  (now <- datetime_now ;;
   fr <- lift (measure_pass fs (strftime now) report_data token_address) ;;
   let final_height := Z.max min_height (y_position fr) in
   image <- Image_new (width, final_height) (30, 30, 40) ;;
   let image :=
     {| size := size image; background := background image;
        ops := (ops image ++ fst (draw_pass fs fr final_height))%list |} in
   Image_save image "created_image.png" ;;;
   logging_info "Image saved successfully" ;;;
   ret "created_image.png")%io.

(** [create_report_image(report_data, token_address)] *)
Definition create_report_image (report_data : Report.t)
    (token_address : string) : M string :=
  (logging_info ("Creating report image for token: " ++ token_address) ;;;
   try_except
     (_ <- Image_new (width, min_height) (30, 30, 40) ;;
      fs <- load_fonts ;;
      render fs report_data token_address)
     (fun e => logging_error "Failed to create image: " e ;;; raise e))%io.

End Renderer.

End Infoimage.

(* ================================================================= *)
(** ** [create_report_text] of [twitter.py] *)

Module Twitter.

Definition newline : string := String (ascii_of_nat 10) EmptyString.

(** Lines 137-140, one turn of the loop
    [for idx, risk in enumerate(report["risks"][:3])]. *)
Definition add_risk_line (risk_text : string) (entry : Z * Risk.t)
    : result string :=
  let '(idx, risk) := entry in
  (name <- item "name" (Risk.name risk) ;;
   level <- item "level" (Risk.level risk) ;;
   let risk_text :=
     risk_text ++ str (idx + 1) ++ ". " ++ name ++ ": " ++ upper level in
   value <- item "value" (Risk.value risk) ;;
   let risk_text :=
     if truthy value then risk_text ++ " (" ++ value ++ ")" else risk_text in
   Ok (risk_text ++ newline))%py.

(** [create_report_text(report, token_address)] *)
Definition create_report_text (report : Report.t) (token_address : string)
    : result string :=
  (risks <- item "risks" (Report.risks report) ;;
   risk_text <- for_each add_risk_line (enumerate (take 3 risks)) "" ;;
   score <- item "normalized_score" (Report.normalized_score report) ;;
   let risk_level :=
     if score >? 66 then "HIGH RISK"
     else if score >? 33 then "MEDIUM RISK"
     else "LOW RISK" in
   let text :=
     "Token: " ++ slice token_address None (Some 6) ++ "..."
     ++ slice token_address (Some (-4)) None ++ newline
     ++ "Risk Score: " ++ str score ++ "/100 (" ++ risk_level ++ ")"
     ++ newline ++ newline
     ++ "Top Risks:" ++ newline ++ risk_text in
   Ok text)%py.

End Twitter.

(* ================================================================= *)
(** ** Sample worlds and metrics, used to run the model *)

Module Sample.

(** A font metric in which a line is as tall as its font size (11 for
    the built-in font) and ten pixels wide per character. *)
Definition textbbox (f : font) (text : string) : bbox :=
  match f with
  | TrueType _ sz => (0, 0, 10 * len text, sz)
  | DefaultFont => (0, 0, 10 * len text, 11)
  end.

(** A stand-in for [textwrap.wrap] that breaks a text every [w]
    characters. *)
Fixpoint chunks (fuel : nat) (w : nat) (s : string) : list string :=
  match fuel with
  | O => []
  | S fuel' =>
      match s with
      | EmptyString => []
      | _ => substring 0 w s
             :: chunks fuel' w (substring w (String.length s - w) s)
      end
  end.

Definition wrap (text : string) (w : Z) : list string :=
  chunks (String.length text) (Z.to_nat w) text.

Definition noon : datetime :=
  {| year := 2025; month := 3; day := 9;
     hour := 12; minute := 0; second := 5 |}.

(** A machine with the DejaVu fonts installed and nothing else yet. *)
Definition fresh : world :=
  {| clock := noon; font_files := fun _ => true;
     canvases := []; disk := []; log := [] |}.

(** A machine without fonts, after an earlier run left a file behind. *)
Definition used : world :=
  {| clock := noon; font_files := fun _ => false;
     canvases := [(1200, 800)];
     disk := [("created_image.png",
               {| size := (1200, 800); background := (0, 0, 0); ops := [] |})];
     log := [{| levelname := INFO; message := "earlier run";
                cause := None |}] |}.

(** The end-to-end scenario: score 85 and one finding. *)
Definition mint_authority : Risk.t :=
  {| Risk.name := Some "Mint Authority Enabled";
     Risk.level := Some "danger";
     Risk.value := Some "";
     Risk.score := Some 90 |}.

Definition scenario : Report.t :=
  {| Report.normalized_score := Some 85;
     Report.risks := Some [mint_authority] |}.

(** A report with a score and no finding. *)
Definition no_findings : Report.t :=
  {| Report.normalized_score := Some 50; Report.risks := Some [] |}.

Definition address : string := "So11111111111111111111111111111111111111112".

(** The machine of [fresh] later on, at the same clock reading, with an
    earlier output file and earlier log records in place. *)
Definition reused : world :=
  {| clock := noon; font_files := fun _ => true;
     canvases := canvases used; disk := disk used; log := log used |}.

(** A finding whose numbered name, ["1. "] included, is 129 characters
    long. *)
Definition long_name : string :=
  "Liquidity pool tokens are not locked and the deployer wallet "
  ++ "still holds the mint authority together with the freeze authority".

Definition long_finding : Risk.t :=
  {| Risk.name := Some long_name;
     Risk.level := Some "warning";
     Risk.value := Some "97%";
     Risk.score := Some 70 |}.

Definition long_report : Report.t :=
  {| Report.normalized_score := Some 40;
     Report.risks := Some [long_finding] |}.

End Sample.

(* ================================================================= *)
(** ** Properties *)

Import Infoimage.

(** *** Lists and slices *)

Lemma range_length (n : Z) : List.length (range n) = Z.to_nat n.
Proof. unfold range. now rewrite length_map, length_seq. Qed.

Lemma range_nth (n y : Z) :
  0 <= y < n -> nth_error (range n) (Z.to_nat y) = Some y.
Proof.
  intros Hy. unfold range.
  rewrite nth_error_map, nth_error_seq.
  destruct (Nat.ltb_spec (Z.to_nat y) (Z.to_nat n)) as [_ | Hge]; [ | lia ].
  simpl. f_equal. lia.
Qed.

Lemma range_In (n y : Z) : 0 <= y < n -> In y (range n).
Proof. intros Hy. eapply nth_error_In, range_nth, Hy. Qed.

Lemma take_take {A} (l : list A) : take 3 (take 3 l) = take 3 l.
Proof. unfold take. rewrite firstn_firstn. now rewrite Nat.min_id. Qed.

Lemma take_length {A} (l : list A) : (List.length (take 3 l) <= 3)%nat.
Proof. unfold take. apply firstn_le_length. Qed.

Lemma append_assoc (a b c : string) : ((a ++ b) ++ c = a ++ (b ++ c))%string.
Proof. induction a as [ | x a IH ]; cbn; [ | rewrite IH ]; reflexivity. Qed.

Lemma substring_whole (s : string) (m : nat) :
  (String.length s <= m)%nat -> substring 0 m s = s.
Proof.
  revert m. induction s as [ | c s IH ]; intros m Hm.
  - now destruct m.
  - destruct m as [ | m ]; simpl in *; [ lia | ].
    f_equal. apply IH. lia.
Qed.

(** [s[:n]] is the first [n] characters, all of [s] when it is shorter. *)
Lemma slice_head (s : string) (n : Z) :
  0 <= n -> slice s None (Some n) = substring 0 (Z.to_nat n) s.
Proof.
  intros Hn. unfold slice, clamp, len.
  destruct (Z.ltb_spec n 0) as [ | _ ]; [ lia | ].
  rewrite Z.sub_0_r. change (Z.to_nat 0) with 0%nat.
  destruct (Z.le_gt_cases n (Z.of_nat (String.length s))) as [Hle | Hgt].
  - now rewrite Z.min_l.
  - rewrite Z.min_r by lia. rewrite Nat2Z.id.
    rewrite !substring_whole; trivial; lia.
Qed.

(** [s[-n:]] is the last [n] characters, all of [s] when it is shorter. *)
Lemma slice_tail (s : string) (n : Z) :
  0 < n ->
  slice s (Some (- n)) None
  = substring (String.length s - Z.to_nat n) (Z.to_nat n) s.
Proof.
  intros Hn. unfold slice, clamp, len.
  destruct (Z.ltb_spec (- n) 0) as [ _ | ]; [ | lia ].
  destruct (Z.le_gt_cases n (Z.of_nat (String.length s))) as [Hle | Hgt].
  - rewrite Z.max_r by lia. f_equal; lia.
  - rewrite Z.max_l by lia. rewrite Z.sub_0_r, Nat2Z.id.
    replace (String.length s - Z.to_nat n)%nat with 0%nat by lia.
    change (Z.to_nat 0) with 0%nat.
    rewrite !substring_whole; trivial; lia.
Qed.

(** *** Severity tiers *)

(** The tiers as the specification words them. *)
Inductive tier : Type := Low | Medium | High.

Definition tier_of (normalized_score : Z) : tier :=
  if 66 <? normalized_score then High
  else if (33 <? normalized_score) && (normalized_score <=? 66) then Medium
  else Low.

Definition tier_label (t : tier) : string :=
  match t with
  | High => "HIGH RISK"
  | Medium => "MEDIUM RISK"
  | Low => "LOW RISK"
  end.

Definition tier_color (t : tier) : color :=
  match t with
  | High => red
  | Medium => yellow
  | Low => green
  end.

Lemma label_of_tier (score : Z) :
  risk_level_label score = tier_label (tier_of score).
Proof.
  unfold risk_level_label, tier_of.
  rewrite !Z.gtb_ltb.
  destruct (Z.ltb_spec 66 score); trivial.
  destruct (Z.ltb_spec 33 score); trivial.
  destruct (Z.leb_spec score 66); trivial; lia.
Qed.

Lemma color_of_tier (score : Z) :
  score_color score = tier_color (tier_of score).
Proof.
  unfold score_color, tier_of.
  rewrite !Z.gtb_ltb.
  destruct (Z.ltb_spec 66 score); trivial.
  destruct (Z.ltb_spec 33 score); trivial.
  destruct (Z.leb_spec score 66); trivial; lia.
Qed.

(** *** Font loading *)

Definition bold_file : string := "DejaVuSans-Bold.ttf".
Definition regular_file : string := "DejaVuSans.ttf".

Definition dejavu : fontset :=
  {| title_font := TrueType bold_file 50;
     header_font := TrueType bold_file 36;
     normal_font := TrueType regular_file 28;
     small_font := TrueType regular_file 20 |}.

Definition all_default : fontset :=
  {| title_font := DefaultFont; header_font := DefaultFont;
     normal_font := DefaultFont; small_font := DefaultFont |}.

(** The fonts a render ends up with, from which files can be opened. *)
Definition fonts_for (bold regular : bool) : fontset :=
  if bold && regular then dejavu else all_default.

Definition font_warning : log_record :=
  {| levelname := WARNING;
     message := "DejaVuSans fonts not found, using default font";
     cause := None |}.

(** The log records a font load leaves. *)
Definition font_log (bold regular : bool) : list log_record :=
  if bold && regular then [] else [font_warning].

Definition with_log (w : world) (records : list log_record) : world :=
  {| clock := clock w; font_files := font_files w; canvases := canvases w;
     disk := disk w; log := (log w ++ records)%list |}.

Lemma load_fonts_run (w : world) :
  load_fonts w
  = (Ok (fonts_for (font_files w bold_file) (font_files w regular_file)),
     with_log w (font_log (font_files w bold_file)
                          (font_files w regular_file))).
Proof.
  cbv [load_fonts try_except_IOError World.bind ImageFont_truetype
       ImageFont_load_default World.ret logging_warning emit fonts_for
       font_log with_log bold_file regular_file].
  destruct w as [ck ff cv dk lg]; cbn [clock font_files canvases disk log].
  destruct (ff "DejaVuSans-Bold.ttf") eqn:Hbold,
           (ff "DejaVuSans.ttf") eqn:Hregular;
    repeat (cbn; rewrite ?Hbold, ?Hregular);
    rewrite ?app_nil_r; reflexivity.
Qed.

(** *** The whole render, in closed form *)

Section Runs.

Variable textbbox : font -> string -> bbox.
Variable wrap : string -> Z -> list string.


Definition start_record (token_address : string) : log_record :=
  {| levelname := INFO;
     message := "Creating report image for token: " ++ token_address;
     cause := None |}.

Definition saved_record : log_record :=
  {| levelname := INFO; message := "Image saved successfully";
     cause := None |}.

Definition failure_record (e : exn) : log_record :=
  {| levelname := ERROR; message := "Failed to create image: ";
     cause := Some e |}.

(** The image a successful render saves. *)
Definition final_image (fs : fontset) (fr : frame) : image :=
  let final_height := Z.max min_height (y_position fr) in
  {| size := (width, final_height); background := (30, 30, 40);
     ops := fst (draw_pass textbbox wrap fs fr final_height) |}.

(** One call of [create_report_image], as a function of the clock, of
    the two font files and of the arguments: the result, and what the
    call adds to the world. *)
Lemma create_report_image_run (report_data : Report.t)
    (token_address : string) (w : world) :
  let bold := font_files w bold_file in
  let regular := font_files w regular_file in
  let fs := fonts_for bold regular in
  create_report_image textbbox wrap report_data token_address w
  = match measure_pass textbbox wrap fs (strftime (clock w)) report_data
            token_address with
    | Ok fr =>
        (Ok "created_image.png",
         {| clock := clock w; font_files := font_files w;
            canvases :=
              (canvases w
               ++ [(width, min_height);
                   (width, Z.max min_height (y_position fr))])%list;
            disk := ("created_image.png", final_image fs fr) :: disk w;
            log :=
              (log w ++ start_record token_address :: font_log bold regular
               ++ [saved_record])%list |})
    | Raise e =>
        (Raise e,
         {| clock := clock w; font_files := font_files w;
            canvases := (canvases w ++ [(width, min_height)])%list;
            disk := disk w;
            log :=
              (log w ++ start_record token_address :: font_log bold regular
               ++ [failure_record e])%list |})
    end.
Proof.
  intros bold regular fs.
  unfold create_report_image.
  cbv [World.bind try_except logging_info emit Image_new].
  rewrite load_fonts_run.
  cbv [with_log render World.bind datetime_now lift].
  cbn [clock font_files canvases disk log].
  fold bold regular fs.
  destruct (measure_pass textbbox wrap fs (strftime (clock w)) report_data
              token_address) as [fr | e].
  - cbv [World.bind Image_new Image_save logging_info emit World.ret
         final_image].
    cbn [clock font_files canvases disk log size background ops app].
    rewrite <- ?app_assoc. reflexivity.
  - cbv [World.bind logging_error emit World.raise].
    cbn [clock font_files canvases disk log].
    rewrite <- ?app_assoc. reflexivity.
Qed.

(** *** The measure pass *)

(** With [i] unbound, a turn of the measuring loop raises at line 107,
    whatever the finding. *)
Lemma measure_risk_unbound (fs : fontset) (st : Z * string) (risk : Risk.t) :
  measure_risk textbbox wrap fs None st risk = Raise (UnboundLocalError "i").
Proof. reflexivity. Qed.

Lemma take_nonempty {A} (l : list A) : l <> [] -> take 3 l <> [].
Proof. destruct l; [ congruence | discriminate ]. Qed.

Lemma measure_pass_findings (fs : fontset) (now : string)
    (report_data : Report.t) (token_address : string) :
  get (Report.risks report_data) [] <> [] ->
  measure_pass textbbox wrap fs now report_data token_address
  = Raise (UnboundLocalError "i").
Proof.
  intros Hne. apply take_nonempty in Hne.
  unfold measure_pass.
  destruct (take 3 (get (Report.risks report_data) [])) as [ | risk rest ];
    [ congruence | reflexivity ].
Qed.

(** What the measure pass accumulates when there is no finding. *)
Definition measured_without_findings (fs : fontset) (now : string)
    (score : Z) (token_address : string) : Z :=
  top_margin
  + (text_height textbbox (title_font fs) title_text + vertical_spacing)
  + (text_height textbbox (normal_font fs)
       ("Address: " ++ short_address token_address) + vertical_spacing)
  + (text_height textbbox (small_font fs) ("Generated: " ++ now)
     + vertical_spacing)
  + (Z.max circle_height
       (text_height textbbox (header_font fs) (risk_level_label score))
     + vertical_spacing + 30)
  + (add_line_heights textbbox (small_font fs)
       (wrap disclaimer_text 110) 0)
  + bottom_margin.

Lemma add_line_heights_shift (f : font) (lines : list string) (y : Z) :
  add_line_heights textbbox f lines y
  = y + add_line_heights textbbox f lines 0.
Proof.
  unfold add_line_heights. revert y.
  induction lines as [ | line lines IH ]; intros y; simpl.
  - lia.
  - rewrite IH. rewrite (IH (text_height textbbox f line + 5)). lia.
Qed.

Lemma measure_pass_no_findings (fs : fontset) (now : string)
    (report_data : Report.t) (token_address : string) :
  get (Report.risks report_data) [] = [] ->
  let score := get (Report.normalized_score report_data) 0 in
  measure_pass textbbox wrap fs now report_data token_address
  = Ok {| title_height := text_height textbbox (title_font fs) title_text;
          address_text := "Address: " ++ short_address token_address;
          address_height :=
            text_height textbbox (normal_font fs)
              ("Address: " ++ short_address token_address);
          current_time := now;
          timestamp_height :=
            text_height textbbox (small_font fs) ("Generated: " ++ now);
          score := score;
          risk_level := risk_level_label score;
          risk_label_height :=
            text_height textbbox (header_font fs) (risk_level_label score);
          risks := [];
          y_position :=
            measured_without_findings fs now score token_address |}.
Proof.
  intros Hnil score. unfold measure_pass. rewrite Hnil.
  change (take 3 (@nil Risk.t)) with (@nil Risk.t).
  cbn [for_each Py.bind fst snd]. fold score.
  change (int (truediv content_width 10)) with 110.
  rewrite add_line_heights_shift.
  unfold measured_without_findings. do 2 f_equal.
Qed.

(** The measure pass raises nothing but the unbound [i]. *)
Lemma measure_pass_raises (fs : fontset) (now : string)
    (report_data : Report.t) (token_address : string) (e : exn) :
  measure_pass textbbox wrap fs now report_data token_address = Raise e ->
  e = UnboundLocalError "i" /\ get (Report.risks report_data) [] <> [].
Proof.
  intros Hraise.
  destruct (get (Report.risks report_data) []) as [ | risk rest ] eqn:Hrisks.
  - rewrite measure_pass_no_findings in Hraise by exact Hrisks. discriminate.
  - rewrite measure_pass_findings in Hraise by (rewrite Hrisks; discriminate).
    split; [ congruence | discriminate ].
Qed.

(** A frame the measure pass returns holds at most three findings, the
    first ones of the report, and the label of the score. *)
Lemma measure_pass_frame (fs : fontset) (now : string)
    (report_data : Report.t) (token_address : string) (fr : frame) :
  measure_pass textbbox wrap fs now report_data token_address = Ok fr ->
  risks fr = take 3 (get (Report.risks report_data) [])
  /\ score fr = get (Report.normalized_score report_data) 0
  /\ risk_level fr = risk_level_label (score fr).
Proof.
  intros Hok.
  destruct (get (Report.risks report_data) []) as [ | risk rest ] eqn:Hrisks.
  - rewrite measure_pass_no_findings in Hok by exact Hrisks.
    injection Hok as <-. cbn. auto.
  - rewrite measure_pass_findings in Hok by (rewrite Hrisks; discriminate).
    discriminate.
Qed.

End Runs.

(** *** The draw pass, as a display list *)

Section Drawing.

Variable textbbox : font -> string -> bbox.
Variable wrap : string -> Z -> list string.

(** The calls that draw the lines of a name from [y] downwards. *)
Fixpoint name_ops (f : font) (lines : list string) (y : Z) : list draw_op :=
  match lines with
  | [] => []
  | line :: rest =>
      Text (left_margin + 20) y line f white
      :: name_ops f rest (y + (text_height textbbox f line + 5))
  end.

Lemma draw_name_lines_run (f : font) (lines : list string)
    (canvas : list draw_op) (y : Z) :
  draw_name_lines textbbox f lines (canvas, y)
  = ((canvas ++ name_ops f lines y)%list,
     add_line_heights textbbox f lines y).
Proof.
  unfold draw_name_lines, add_line_heights. revert canvas y.
  induction lines as [ | line rest IH ]; intros canvas y.
  - cbn. now rewrite app_nil_r.
  - cbn [fold_left name_ops fst snd]. rewrite IH.
    now rewrite <- app_assoc.
Qed.

(** The calls that draw one finding from [y] downwards, and the offset
    the next finding starts at. *)
Definition row_ops (fs : fontset) (y : Z) (entry : Z * Risk.t)
    : list draw_op :=
  let risk := snd entry in
  let risk_level := upper (get (Risk.level risk) "unknown") in
  let named :=
    wrap_risk_name wrap fs (fst entry) (get (Risk.name risk) "Unknown Risk") in
  let y1 := add_line_heights textbbox (fst named) (snd named) y in
  let risk_text := level_line risk_level (get (Risk.value risk) "") in
  let y2 := y1 + (text_height textbbox (normal_font fs) risk_text + 5) in
  (name_ops (fst named) (snd named) y
   ++ [Text (left_margin + 40) y1 risk_text (normal_font fs)
            (level_color risk_level);
       RoundedRectangle (left_margin + 40) (y2 + 10)
         (left_margin + 40
          + Z.min (content_width - 100) (get (Risk.score risk) 0 * 4))
         (y2 + 30) 5 (level_color risk_level)])%list.

Definition row_end (fs : fontset) (y : Z) (entry : Z * Risk.t) : Z :=
  let risk := snd entry in
  let risk_level := upper (get (Risk.level risk) "unknown") in
  let named :=
    wrap_risk_name wrap fs (fst entry) (get (Risk.name risk) "Unknown Risk") in
  let y1 := add_line_heights textbbox (fst named) (snd named) y in
  let risk_text := level_line risk_level (get (Risk.value risk) "") in
  y1 + (text_height textbbox (normal_font fs) risk_text + 5)
  + (40 + vertical_spacing).

Lemma draw_risk_run (fs : fontset) (canvas : list draw_op) (y : Z)
    (entry : Z * Risk.t) :
  draw_risk textbbox wrap fs (canvas, y) entry
  = ((canvas ++ row_ops fs y entry)%list, row_end fs y entry).
Proof.
  destruct entry as [i risk]. unfold draw_risk, row_ops, row_end.
  cbn [fst snd].
  destruct (wrap_risk_name wrap fs i (get (Risk.name risk) "Unknown Risk"))
    as [f lines].
  rewrite draw_name_lines_run. cbn [fst snd].
  now rewrite <- !app_assoc.
Qed.

Fixpoint rows_ops (fs : fontset) (y : Z) (entries : list (Z * Risk.t))
    : list draw_op :=
  match entries with
  | [] => []
  | entry :: rest =>
      (row_ops fs y entry ++ rows_ops fs (row_end fs y entry) rest)%list
  end.

Fixpoint rows_end (fs : fontset) (y : Z) (entries : list (Z * Risk.t)) : Z :=
  match entries with
  | [] => y
  | entry :: rest => rows_end fs (row_end fs y entry) rest
  end.

Lemma draw_rows_run (fs : fontset) (entries : list (Z * Risk.t))
    (canvas : list draw_op) (y : Z) :
  fold_left (draw_risk textbbox wrap fs) entries (canvas, y)
  = ((canvas ++ rows_ops fs y entries)%list, rows_end fs y entries).
Proof.
  revert canvas y.
  induction entries as [ | entry rest IH ]; intros canvas y.
  - cbn. now rewrite app_nil_r.
  - cbn [fold_left rows_ops rows_end]. rewrite draw_risk_run, IH.
    now rewrite <- app_assoc.
Qed.

(** The calls that draw the disclaimer lines from [y] downwards. *)
Fixpoint disclaimer_ops (fs : fontset) (lines : list string) (y : Z)
    : list draw_op :=
  match lines with
  | [] => []
  | line :: rest =>
      Text (width - right_margin - text_width textbbox (small_font fs) line)
           y line (small_font fs) light_gray
      :: disclaimer_ops fs rest (y + 25)
  end.

Lemma draw_disclaimer_run (fs : fontset) (final_height : Z)
    (canvas : list draw_op) :
  draw_disclaimer textbbox wrap fs final_height canvas
  = (canvas
     ++ disclaimer_ops fs (wrap disclaimer_text 110)
          (final_height - bottom_margin
           - Z.of_nat (List.length (wrap disclaimer_text 110)) * 25))%list.
Proof.
  unfold draw_disclaimer.
  change (int (truediv content_width 10)) with 110.
  generalize (final_height - bottom_margin
              - Z.of_nat (List.length (wrap disclaimer_text 110)) * 25).
  generalize (wrap disclaimer_text 110). intros lines. revert canvas.
  induction lines as [ | line rest IH ]; intros canvas y.
  - cbn. now rewrite app_nil_r.
  - cbn [fold_left disclaimer_ops fst snd]. rewrite IH.
    now rewrite <- app_assoc.
Qed.

(** The offsets at which the draw pass places the sections. *)
Definition address_y (fr : frame) : Z :=
  top_margin + (title_height fr + vertical_spacing).
Definition timestamp_y (fr : frame) : Z :=
  address_y fr + (address_height fr + vertical_spacing).
Definition gauge_y (fr : frame) : Z :=
  timestamp_y fr + (timestamp_height fr + vertical_spacing).
Definition header_y (fr : frame) : Z :=
  gauge_y fr + (circle_height + vertical_spacing + 30).
Definition rows_y (fr : frame) : Z :=
  header_y fr + (risk_label_height fr + vertical_spacing).

(** Everything the draw pass paints after the background gradient. *)
Definition foreground (fs : fontset) (fr : frame) (final_height : Z)
    : list draw_op :=
  let stamp := "Generated: " ++ current_time fr in
  let score_text := str (score fr) in
  let center := (left_margin + circle_radius + 20, gauge_y fr + circle_radius) in
  ([Rectangle (10, 10, width - 10, final_height - 10) (255, 255, 255, 50) 2;
    Text (left_margin + 2) (top_margin + 2) title_text (title_font fs)
         (50, 50, 50);
    Text left_margin top_margin title_text (title_font fs) white;
    Text left_margin (address_y fr) (address_text fr) (normal_font fs)
         light_gray;
    Text (width - right_margin - text_width textbbox (small_font fs) stamp)
         (timestamp_y fr) stamp (small_font fs) light_gray]
   ++ draw_progress_ring center circle_radius 10 (score fr)
        (score_color (score fr))
   ++ [Text (fst center - text_width textbbox (header_font fs) score_text / 2)
            (snd center - text_height textbbox (header_font fs) score_text / 2)
            score_text (header_font fs) (score_color (score fr));
       Text (left_margin + circle_radius * 2 + 60)
            (gauge_y fr + circle_radius - risk_label_height fr / 2)
            (risk_level fr) (header_font fs) (score_color (score fr));
       Text left_margin (header_y fr) "Top Risks:" (header_font fs) white]
   ++ rows_ops fs (rows_y fr) (enumerate (risks fr))
   ++ disclaimer_ops fs (wrap disclaimer_text 110)
        (final_height - bottom_margin
         - Z.of_nat (List.length (wrap disclaimer_text 110)) * 25)
   ++ [Text left_margin (final_height - bottom_margin - 20) watermark_text
            (small_font fs) light_gray])%list.

Lemma draw_pass_run (fs : fontset) (fr : frame) (final_height : Z) :
  draw_pass textbbox wrap fs fr final_height
  = ((gradient final_height ++ foreground fs fr final_height)%list,
     rows_end fs (rows_y fr) (enumerate (risks fr))).
Proof.
  unfold draw_pass. rewrite draw_rows_run, draw_disclaimer_run.
  unfold foreground, rows_y, header_y, gauge_y, timestamp_y, address_y.
  cbn [fst snd]. f_equal.
  rewrite <- !app_assoc. cbn [app]. reflexivity.
Qed.

End Drawing.

(* ================================================================= *)
(** ** The score tiers (C4) *)

(** The draw pass writes the score and the label of its frame, and
    draws the gauge, in the colour of the frame's score. *)
Lemma gauge_drawn_in_score_color (textbbox : font -> string -> bbox)
    (wrap : string -> Z -> list string) (fs : fontset) (fr : frame)
    (final_height : Z) :
  let canvas := fst (draw_pass textbbox wrap fs fr final_height) in
  let center := (left_margin + circle_radius + 20, gauge_y fr + circle_radius) in
  In (Text (left_margin + circle_radius * 2 + 60)
           (gauge_y fr + circle_radius - risk_label_height fr / 2)
           (risk_level fr) (header_font fs) (score_color (score fr))) canvas
  /\ In (Text (fst center
              - text_width textbbox (header_font fs) (str (score fr)) / 2)
             (snd center
              - text_height textbbox (header_font fs) (str (score fr)) / 2)
             (str (score fr)) (header_font fs) (score_color (score fr)))
        canvas
  /\ (forall op, In op (draw_progress_ring center circle_radius 10 (score fr)
                         (score_color (score fr))) ->
                 In op canvas).
Proof.
  intros canvas center. subst canvas. rewrite draw_pass_run. cbn [fst].
  unfold foreground. fold center.
  repeat split.
  - apply in_or_app. right. apply in_or_app. right. apply in_or_app. right.
    apply in_or_app. left. cbn. auto.
  - apply in_or_app. right. apply in_or_app. right. apply in_or_app. right.
    apply in_or_app. left. cbn. auto.
  - intros op Hop. apply in_or_app. right. apply in_or_app. right.
    apply in_or_app. left. exact Hop.
Qed.

(** C4: the classification behind the risk label and behind the colour
    of the gauge, of the score and of the label is a function of the
    normalised score alone.  Above 66 it is high and red, above 33 and
    at most 66 medium and yellow, otherwise low and green; 33 is low and
    66 is medium.  The label of line 90, the colour of line 165 and the
    label of the text summary all follow it; a frame the measure pass
    returns carries the label of its own score, and the draw pass writes
    that label in the colour of that score. *)
Theorem score_tiers (normalized_score : Z) :
  risk_level_label normalized_score = tier_label (tier_of normalized_score)
  /\ score_color normalized_score = tier_color (tier_of normalized_score)
  /\ (forall risks token_address,
        match Twitter.create_report_text
                {| Report.normalized_score := Some normalized_score;
                   Report.risks := risks |} token_address with
        | Ok text =>
            exists before after,
              text = before ++ "Risk Score: " ++ str normalized_score
                     ++ "/100 (" ++ tier_label (tier_of normalized_score)
                     ++ ")" ++ after
        | Raise _ => True
        end)
  /\ (forall textbbox wrap fs now risks token_address final_height,
        match measure_pass textbbox wrap fs now
                {| Report.normalized_score := Some normalized_score;
                   Report.risks := risks |} token_address with
        | Ok fr =>
            score fr = normalized_score
            /\ risk_level fr = tier_label (tier_of normalized_score)
            /\ In (Text (left_margin + circle_radius * 2 + 60)
                        (gauge_y fr + circle_radius
                         - risk_label_height fr / 2)
                        (tier_label (tier_of normalized_score))
                        (header_font fs)
                        (tier_color (tier_of normalized_score)))
                  (fst (draw_pass textbbox wrap fs fr final_height))
        | Raise _ => True
        end)
  /\ (tier_of 0 = Low /\ tier_of 33 = Low /\ tier_of 34 = Medium
      /\ tier_of 66 = Medium /\ tier_of 67 = High /\ tier_of 100 = High).
Proof.
  split; [ apply label_of_tier | ].
  split; [ apply color_of_tier | ].
  split; [ | split ].
  - intros risks token_address. unfold Twitter.create_report_text.
    destruct risks as [ rs | ]; cbn [item Py.bind Report.risks]; trivial.
    destruct (for_each Twitter.add_risk_line (enumerate (take 3 rs)) "")
      as [ risk_text | e ]; cbn [Py.bind item Report.normalized_score];
      trivial.
    fold (risk_level_label normalized_score).
    rewrite label_of_tier.
    exists ("Token: " ++ slice token_address None (Some 6) ++ "..."
            ++ slice token_address (Some (-4)) None ++ Twitter.newline).
    exists (Twitter.newline ++ Twitter.newline ++ "Top Risks:"
            ++ Twitter.newline ++ risk_text).
    generalize (tier_label (tier_of normalized_score)). intros label.
    rewrite !append_assoc. reflexivity.
  - intros textbbox wrap fs now risks token_address final_height.
    destruct (measure_pass textbbox wrap fs now _ token_address)
      as [ fr | e ] eqn:Hrun; trivial.
    apply measure_pass_frame in Hrun. destruct Hrun as (_ & Hscore & Hlabel).
    cbn in Hscore.
    pose proof (gauge_drawn_in_score_color textbbox wrap fs fr final_height)
      as (Hdrawn & _).
    rewrite Hlabel, Hscore, label_of_tier, color_of_tier in Hdrawn.
    rewrite Hlabel, Hscore, label_of_tier. auto.
  - repeat split.
Qed.

(* ================================================================= *)
(** ** The ring gauge (C5) *)

(** The end angle as the specification, and line 11, write it. *)
Definition spec_end_angle (score : Z) : float :=
  (90 - (float_of_int score / 100 * 360))%float.

(** [ImageDraw.arc(xy, start, end)] as Pillow documents it: "Angles are
    measured from 3 o'clock, increasing clockwise".  So 0 points to
    3 o'clock, 90 to 6 o'clock (the bottom), 180 to 9 o'clock and 270 to
    12 o'clock (the top). *)
Inductive clock_face : Type := Three | Six | Nine | Twelve.

Definition points_to (angle : float) : option clock_face :=
  if PrimFloat.eqb angle 0 then Some Three
  else if PrimFloat.eqb angle 90 then Some Six
  else if PrimFloat.eqb angle 180 then Some Nine
  else if PrimFloat.eqb angle 270 then Some Twelve
  else None.

(** The arc runs clockwise from [start] to [end_], and Pillow takes an
    [end_] below [start] a full turn later.  One turn is enough for the
    angles [draw_progress_ring] passes, which lie within 360 degrees
    below its start. *)
Definition arc_end (start end_ : float) : float :=
  if PrimFloat.ltb end_ start then (end_ + 360)%float else end_.

(** The degrees the arc covers; an arc of 0 degrees draws nothing. *)
Definition arc_span (start end_ : float) : float :=
  (arc_end start end_ - start)%float.

(** For a score from 1 to 100 the end angle of line 11 is below the
    start angle 90, by a full turn at most. *)
Definition end_below_start (score : Z) : bool :=
  PrimFloat.ltb (spec_end_angle score) 90
  && PrimFloat.leb (-270) (spec_end_angle score).

Lemma ends_checked :
  forallb end_below_start (map (fun k => 1 + k) (range 100)) = true.
Proof. vm_compute. reflexivity. Qed.

(** C5, on the code: [draw_progress_ring] does pass the start angle 90
    and the end angle 90 - (score / 100 * 360) to [draw.arc], after the
    gray arc over the full circle.  But for [draw.arc] the angle 90 is
    the bottom, not the top its comment names, and for every score from
    1 to 100 the end angle lies below the start, so the arc runs
    clockwise from the bottom to the end angle a full turn later.  At
    score 100 the two angles meet and the arc covers 0 degrees, as at
    score 0; at 75 it covers 90 degrees, at 50 it covers 180 degrees,
    from the bottom over 9 o'clock to the top, and at 25 it covers 270
    degrees. *)
Theorem progress_ring_starts_at_the_bottom :
  (forall (center : Z * Z) (radius thickness score : Z) (c : color),
     let box := (fst center - radius, snd center - radius,
                 fst center + radius, snd center + radius) in
     draw_progress_ring center radius thickness score c
     = [ Arc box 0 360 (100, 100, 100) thickness;
         Arc box 90 (spec_end_angle score) c thickness ])
  /\ points_to 90 = Some Six
  /\ (forall score, 0 < score <= 100 -> end_below_start score = true)
  /\ (spec_end_angle 100 = (-270)%float
      /\ arc_end 90 (spec_end_angle 100) = 90%float
      /\ arc_span 90 (spec_end_angle 100) = 0%float)
  /\ arc_span 90 (spec_end_angle 0) = 0%float
  /\ arc_span 90 (spec_end_angle 75) = 90%float
  /\ (arc_span 90 (spec_end_angle 50) = 180%float
      /\ points_to (arc_end 90 (spec_end_angle 50)) = Some Twelve)
  /\ arc_span 90 (spec_end_angle 25) = 270%float.
Proof.
  split; [ reflexivity | ].
  split; [ reflexivity | ].
  split.
  - intros score Hscore.
    pose proof ends_checked as Hall. rewrite forallb_forall in Hall.
    apply Hall. apply in_map_iff. exists (score - 1).
    split; [ lia | apply range_In; lia ].
  - repeat split.
Qed.

(* ================================================================= *)
(** ** Address truncation (C7) *)

(** C7: the image shows an address of at most 20 characters as it is,
    and a longer one as its first 6 characters, three dots and its last
    6 characters; the text summary shows every address as its first 6
    characters, three dots and its last 4 characters.  The address line
    of a frame and the first line of the summary are built that way. *)
Theorem address_truncation (token_address : string) :
  let n := String.length token_address in
  short_address token_address
  = (if (20 <? n)%nat
     then substring 0 6 token_address ++ "..."
          ++ substring (n - 6) 6 token_address
     else token_address)
  /\ (forall textbbox wrap fs now report_data,
        match measure_pass textbbox wrap fs now report_data token_address with
        | Ok fr =>
            address_text fr = "Address: " ++ short_address token_address
        | Raise _ => True
        end)
  /\ (forall report,
        match Twitter.create_report_text report token_address with
        | Ok text =>
            exists rest,
              text = "Token: " ++ substring 0 6 token_address ++ "..."
                     ++ substring (n - 4) 4 token_address
                     ++ Twitter.newline ++ rest
        | Raise _ => True
        end).
Proof.
  intros n. split; [ | split ].
  - unfold short_address, len. fold n.
    rewrite Z.gtb_ltb.
    destruct (Z.ltb_spec 20 (Z.of_nat n)) as [Hlong | Hshort];
      destruct (Nat.ltb_spec 20 n) as [Hlong' | Hshort']; try lia; trivial.
    rewrite slice_head by lia.
    pose proof (slice_tail token_address 6) as Htail.
    cbn [Z.opp] in Htail. rewrite Htail by lia.
    reflexivity.
  - intros textbbox wrap fs now report_data.
    destruct (measure_pass textbbox wrap fs now report_data token_address)
      as [ fr | e ] eqn:Hrun; trivial.
    destruct (get (Report.risks report_data) []) as [ | risk rest ] eqn:Hrisks.
    + rewrite measure_pass_no_findings in Hrun by exact Hrisks.
      injection Hrun as <-. reflexivity.
    + rewrite measure_pass_findings in Hrun by (rewrite Hrisks; discriminate).
      discriminate.
  - intros report. unfold Twitter.create_report_text.
    destruct (item "risks" (Report.risks report)) as [ rs | e ];
      cbn [Py.bind]; trivial.
    destruct (for_each Twitter.add_risk_line (enumerate (take 3 rs)) "")
      as [ risk_text | e ]; cbn [Py.bind]; trivial.
    destruct (item "normalized_score" (Report.normalized_score report))
      as [ score | e ]; cbn [Py.bind]; trivial.
    rewrite slice_head by lia.
    pose proof (slice_tail token_address 4) as Htail.
    cbn [Z.opp] in Htail. rewrite Htail by lia.
    eexists. fold n. reflexivity.
Qed.

Example short_address_examples :
  short_address "So11111111111111111111111111111111111111112"
  = "So1111...111112"
  /\ short_address "12345678901234567890" = "12345678901234567890"
  /\ Twitter.create_report_text
       {| Report.normalized_score := Some 10; Report.risks := Some [] |}
       "abc"
     = Ok ("Token: abc...abc" ++ Twitter.newline
           ++ "Risk Score: 10/100 (LOW RISK)" ++ Twitter.newline
           ++ Twitter.newline ++ "Top Risks:" ++ Twitter.newline).
Proof. repeat split. Qed.

(* ================================================================= *)
(** ** The gradient background (C8) *)

Lemma gradient_nth (final_height y : Z) :
  0 <= y < final_height ->
  nth_error (gradient final_height) (Z.to_nat y)
  = Some (Line 0 y width y (gradient_color y final_height)).
Proof.
  intros Hy. unfold gradient.
  rewrite nth_error_map, range_nth by exact Hy. reflexivity.
Qed.

Lemma gradient_length (final_height : Z) :
  List.length (gradient final_height) = Z.to_nat final_height.
Proof. unfold gradient. now rewrite length_map, range_length. Qed.

(** Every scanline stays within the ramps 30 to 50, 30 to 70 and 40 to
    100: checked on every canvas height from 800 to 810. *)
Definition within_ramps (final_height y : Z) : bool :=
  let '(r, g, b) := gradient_color y final_height in
  (30 <=? r) && (r <=? 50) && (30 <=? g) && (g <=? 70)
  && (40 <=? b) && (b <=? 100).

Lemma gradient_ramps_checked :
  forallb (fun h => forallb (within_ramps h) (range h))
          (map (fun k => 800 + k) (range 11)) = true
  /\ gradient_color 0 800 = (30, 30, 40)
  /\ gradient_color 400 800 = (40, 50, 70)
  /\ gradient_color 799 800 = (49, 69, 99).
Proof.
  split; [ vm_compute; reflexivity | ].
  split; [ vm_compute; reflexivity | ].
  split; vm_compute; reflexivity.
Qed.

(** C8: on a final canvas of height [final_height], for every scanline
    [y] from 0 to [final_height - 1], the [y]-th drawing call of the draw
    pass is a line from [(0, y)] to [(1200, y)] whose colour is
    [(int(30 + y/h*20), int(30 + y/h*40), int(40 + y/h*60))], computed
    in floating point from [y] and the height alone; the first drawing
    call after these [final_height] lines is the border. *)
Theorem gradient_scanlines (textbbox : font -> string -> bbox)
    (wrap : string -> Z -> list string) (fs : fontset) (fr : frame)
    (final_height y : Z) :
  0 <= y < final_height ->
  let t := PrimFloat.div (float_of_int y) (float_of_int final_height) in
  let canvas := fst (draw_pass textbbox wrap fs fr final_height) in
  nth_error canvas (Z.to_nat y)
  = Some (Line 0 y 1200 y
            (int (30 + t * 20)%float,
             int (30 + t * 40)%float,
             int (40 + t * 60)%float))
  /\ nth_error canvas (Z.to_nat final_height)
     = Some (Rectangle (10, 10, 1190, final_height - 10)
                       (255, 255, 255, 50) 2).
Proof.
  intros Hy t canvas. subst canvas. rewrite draw_pass_run. cbn [fst].
  split.
  - rewrite nth_error_app1 by (rewrite gradient_length; lia).
    rewrite gradient_nth by exact Hy. reflexivity.
  - rewrite nth_error_app2 by (rewrite gradient_length; lia).
    rewrite gradient_length, Nat.sub_diag. reflexivity.
Qed.

Lemma gradient_scanlines_witness :
  0 <= 799 < 800
  /\ nth_error
       (fst (draw_pass Sample.textbbox Sample.wrap dejavu
               {| title_height := 50; address_text := "Address: abc";
                  address_height := 28; current_time := "";
                  timestamp_height := 20; score := 50;
                  risk_level := "MEDIUM RISK"; risk_label_height := 36;
                  risks := []; y_position := 413 |} 800))
       (Z.to_nat 799)
     = Some (Line 0 799 1200 799 (49, 69, 99)).
Proof.
  split; [ lia | ].
  apply (gradient_scanlines Sample.textbbox Sample.wrap dejavu _ 800 799).
  lia.
Defined.

(* ================================================================= *)
(** ** Reports with findings (C2) *)

(** C2: when the risks list of [report_data] is not empty,
    [create_report_image] raises: the measuring loop reads the local [i]
    that nothing has bound.  The exception leaves the function, the only
    canvas created is the 1200 x 800 one of line 29, and nothing is
    saved; so no call with findings returns an image. *)
Theorem findings_raise_before_final_canvas
    (textbbox : font -> string -> bbox) (wrap : string -> Z -> list string)
    (report_data : Report.t) (token_address : string) (w : world) :
  get (Report.risks report_data) [] <> [] ->
  let out := create_report_image textbbox wrap report_data token_address w in
  fst out = Raise (UnboundLocalError "i")
  /\ canvases (snd out) = (canvases w ++ [(1200, 800)])%list
  /\ disk (snd out) = disk w
  /\ (forall path, fst out <> Ok path).
Proof.
  intros Hfindings out. subst out.
  rewrite create_report_image_run.
  rewrite measure_pass_findings by exact Hfindings.
  cbn [fst snd canvases disk]. repeat split. discriminate.
Qed.

Lemma findings_raise_before_final_canvas_witness :
  get (Report.risks Sample.scenario) [] <> []
  /\ fst (create_report_image Sample.textbbox Sample.wrap Sample.scenario
            Sample.address Sample.fresh)
     = Raise (UnboundLocalError "i").
Proof.
  split; [ discriminate | ].
  apply (findings_raise_before_final_canvas Sample.textbbox Sample.wrap
           Sample.scenario Sample.address Sample.fresh).
  discriminate.
Defined.

(** Without findings the render goes through: the call returns the
    path, having created the final canvas and saved the image. *)
Lemma no_findings_render (textbbox : font -> string -> bbox)
    (wrap : string -> Z -> list string) (report_data : Report.t)
    (token_address : string) (w : world) :
  get (Report.risks report_data) [] = [] ->
  let out := create_report_image textbbox wrap report_data token_address w in
  fst out = Ok "created_image.png"
  /\ exists fr,
       measure_pass textbbox wrap
         (fonts_for (font_files w bold_file) (font_files w regular_file))
         (strftime (clock w)) report_data token_address = Ok fr
       /\ canvases (snd out)
          = (canvases w
             ++ [(1200, 800); (1200, Z.max 800 (y_position fr))])%list
       /\ read_file (disk (snd out)) "created_image.png"
          = Some (final_image textbbox wrap
                    (fonts_for (font_files w bold_file)
                               (font_files w regular_file)) fr).
Proof.
  intros Hnone out. subst out.
  rewrite create_report_image_run.
  rewrite measure_pass_no_findings by exact Hnone.
  cbn [fst snd canvases disk]. split; [ reflexivity | ].
  eexists. split; [ reflexivity | ]. split; reflexivity.
Qed.

(* ================================================================= *)
(** ** Font fallback (C9) *)

(** C9: when one of the TrueType files cannot be opened, the font load
    logs a warning and yields the built-in font for all four logical
    fonts, and the render goes on with them: the call does exactly what
    the measure pass with the built-in fonts decides, an image saved
    after it is drawn with them, and no [IOError] leaves the call. *)
Theorem font_failure_falls_back (textbbox : font -> string -> bbox)
    (wrap : string -> Z -> list string) (report_data : Report.t)
    (token_address : string) (w : world) :
  font_files w "DejaVuSans-Bold.ttf" = false
  \/ font_files w "DejaVuSans.ttf" = false ->
  let out := create_report_image textbbox wrap report_data token_address w in
  let measured :=
    measure_pass textbbox wrap all_default (strftime (clock w)) report_data
      token_address in
  load_fonts w = (Ok all_default, with_log w [font_warning])
  /\ fst out = match measured with
               | Ok _ => Ok "created_image.png"
               | Raise e => Raise e
               end
  /\ (forall fr, measured = Ok fr ->
        read_file (disk (snd out)) "created_image.png"
        = Some (final_image textbbox wrap all_default fr))
  /\ (forall msg, fst out <> Raise (IOError msg)).
Proof.
  intros Hmissing out measured.
  assert (Hfonts : fonts_for (font_files w bold_file)
                             (font_files w regular_file) = all_default
                   /\ font_log (font_files w bold_file)
                               (font_files w regular_file) = [font_warning]).
  { unfold fonts_for, font_log, bold_file, regular_file.
    destruct Hmissing as [-> | ->]; [ now cbn | ].
    now rewrite andb_false_r. }
  destruct Hfonts as [Hset Hlog].
  split; [ rewrite load_fonts_run, Hset, Hlog; reflexivity | ].
  subst out. rewrite create_report_image_run. cbv zeta. rewrite Hset.
  fold measured.
  destruct measured as [ fr | e ] eqn:Hmeasured; cbn [fst snd disk].
  - split; [ reflexivity | ]. split; [ | discriminate ].
    intros fr' [= <-]. reflexivity.
  - split; [ reflexivity | ]. split; [ discriminate | ].
    apply measure_pass_raises in Hmeasured. destruct Hmeasured as [-> _].
    discriminate.
Qed.

Lemma font_failure_falls_back_witness :
  (font_files Sample.used "DejaVuSans-Bold.ttf" = false
   \/ font_files Sample.used "DejaVuSans.ttf" = false)
  /\ load_fonts Sample.used
     = (Ok all_default, with_log Sample.used [font_warning]).
Proof.
  split; [ left; reflexivity | ].
  apply (font_failure_falls_back Sample.textbbox Sample.wrap
           Sample.no_findings Sample.address Sample.used).
  left; reflexivity.
Defined.

(* ================================================================= *)
(** ** Determinism (C10) *)

(** C10: a call of [create_report_image] is decided by its arguments,
    the font metrics, the clock reading and the two font files.  Two
    calls that agree on these, in worlds that may differ in everything
    else (an earlier output file, earlier log records, earlier canvases),
    return the same value or raise the same exception, leave the same
    image under the returned path, and add the same canvases, files and
    log records to their worlds. *)
Theorem render_is_deterministic (textbbox : font -> string -> bbox)
    (wrap : string -> Z -> list string) (report_data : Report.t)
    (token_address : string) (w1 w2 : world) :
  clock w1 = clock w2 ->
  font_files w1 "DejaVuSans-Bold.ttf" = font_files w2 "DejaVuSans-Bold.ttf" ->
  font_files w1 "DejaVuSans.ttf" = font_files w2 "DejaVuSans.ttf" ->
  let out1 := create_report_image textbbox wrap report_data token_address w1 in
  let out2 := create_report_image textbbox wrap report_data token_address w2 in
  fst out1 = fst out2
  /\ (forall path, fst out1 = Ok path ->
        exists img,
          read_file (disk (snd out1)) path = Some img
          /\ read_file (disk (snd out2)) path = Some img)
  /\ (exists new_canvases new_files new_records,
        (canvases (snd out1) = (canvases w1 ++ new_canvases)%list
         /\ disk (snd out1) = (new_files ++ disk w1)%list
         /\ log (snd out1) = (log w1 ++ new_records)%list)
        /\ (canvases (snd out2) = (canvases w2 ++ new_canvases)%list
            /\ disk (snd out2) = (new_files ++ disk w2)%list
            /\ log (snd out2) = (log w2 ++ new_records)%list)).
Proof.
  intros Hclock Hbold Hregular out1 out2. subst out1 out2.
  rewrite !create_report_image_run. cbv zeta.
  unfold bold_file, regular_file. rewrite Hclock, Hbold, Hregular.
  destruct (measure_pass textbbox wrap _ _ report_data token_address)
    as [ fr | e ]; cbn [fst snd canvases disk log].
  - split; [ reflexivity | ]. split.
    + intros path [= <-]. eexists. split; reflexivity.
    + eexists _, [ _ ], _. repeat split.
  - split; [ reflexivity | ]. split.
    + discriminate.
    + eexists _, [], _. repeat split.
Qed.

Lemma render_is_deterministic_witness :
  (clock Sample.fresh = clock Sample.reused
   /\ font_files Sample.fresh "DejaVuSans-Bold.ttf"
      = font_files Sample.reused "DejaVuSans-Bold.ttf"
   /\ font_files Sample.fresh "DejaVuSans.ttf"
      = font_files Sample.reused "DejaVuSans.ttf")
  /\ fst (create_report_image Sample.textbbox Sample.wrap Sample.no_findings
            Sample.address Sample.fresh)
     = fst (create_report_image Sample.textbbox Sample.wrap
              Sample.no_findings Sample.address Sample.reused).
Proof.
  split; [ repeat split | ].
  apply (render_is_deterministic Sample.textbbox Sample.wrap
           Sample.no_findings Sample.address Sample.fresh Sample.reused);
    reflexivity.
Defined.

(** The two sample worlds do differ, and the file the call leaves is the
    same in both. *)
Example reused_world_same_image :
  disk Sample.fresh <> disk Sample.reused
  /\ read_file
       (disk (snd (create_report_image Sample.textbbox Sample.wrap
                     Sample.no_findings Sample.address Sample.fresh)))
       "created_image.png"
     = read_file
         (disk (snd (create_report_image Sample.textbbox Sample.wrap
                       Sample.no_findings Sample.address Sample.reused)))
         "created_image.png".
Proof. split; [ discriminate | vm_compute; reflexivity ]. Qed.

(* ================================================================= *)
(** ** The first three findings (C6) *)

(** The score bars among a list of drawing calls: the draw pass draws
    one per finding. *)
Definition is_bar (op : draw_op) : bool :=
  match op with
  | RoundedRectangle _ _ _ _ _ _ => true
  | _ => false
  end.

Definition bars (canvas : list draw_op) : nat :=
  List.length (filter is_bar canvas).

Lemma bars_app (c1 c2 : list draw_op) :
  bars (c1 ++ c2) = (bars c1 + bars c2)%nat.
Proof. unfold bars. now rewrite filter_app, length_app. Qed.

Lemma bars_gradient (final_height : Z) : bars (gradient final_height) = 0%nat.
Proof.
  unfold gradient, bars.
  induction (range final_height) as [ | y ys IH ]; [ reflexivity | exact IH ].
Qed.

Lemma enumerate_length {A} (l : list A) :
  List.length (enumerate l) = List.length l.
Proof.
  unfold enumerate.
  rewrite length_combine, range_length, Nat2Z.id. apply Nat.min_id.
Qed.

Section Rows.

Variable textbbox : font -> string -> bbox.
Variable wrap : string -> Z -> list string.

Lemma bars_name_ops (f : font) (lines : list string) (y : Z) :
  bars (name_ops textbbox f lines y) = 0%nat.
Proof.
  revert y. induction lines as [ | line rest IH ]; intros y;
    [ reflexivity | apply IH ].
Qed.

Lemma bars_row_ops (fs : fontset) (y : Z) (entry : Z * Risk.t) :
  bars (row_ops textbbox wrap fs y entry) = 1%nat.
Proof. unfold row_ops. rewrite bars_app, bars_name_ops. reflexivity. Qed.

Lemma bars_rows_ops (fs : fontset) (entries : list (Z * Risk.t)) (y : Z) :
  bars (rows_ops textbbox wrap fs y entries) = List.length entries.
Proof.
  revert y. induction entries as [ | entry rest IH ]; intros y;
    [ reflexivity | ].
  cbn [rows_ops List.length]. now rewrite bars_app, bars_row_ops, IH.
Qed.

Lemma bars_disclaimer_ops (fs : fontset) (lines : list string) (y : Z) :
  bars (disclaimer_ops textbbox fs lines y) = 0%nat.
Proof.
  revert y. induction lines as [ | line rest IH ]; intros y;
    [ reflexivity | apply IH ].
Qed.

(** The draw pass draws one score bar per finding of its frame. *)
Lemma bars_draw_pass (fs : fontset) (fr : frame) (final_height : Z) :
  bars (fst (draw_pass textbbox wrap fs fr final_height))
  = List.length (risks fr).
Proof.
  rewrite draw_pass_run. cbn [fst]. unfold foreground.
  rewrite !bars_app, bars_gradient, bars_rows_ops, bars_disclaimer_ops,
    enumerate_length.
  cbn. lia.
Qed.

End Rows.

(** One line of the text summary, when the finding has its three keys. *)
Definition row_text (entry : Z * Risk.t) : option string :=
  let risk := snd entry in
  match Risk.name risk, Risk.level risk, Risk.value risk with
  | Some name, Some level, Some value =>
      Some (str (fst entry + 1) ++ ". " ++ name ++ ": " ++ upper level
            ++ (if truthy value then " (" ++ value ++ ")" else "")
            ++ Twitter.newline)
  | _, _, _ => None
  end.

(** Texts built by concatenation, brought to one right-nested form. *)
Ltac flatten_text :=
  repeat (progress (rewrite ?append_assoc; cbn [String.append])).

Lemma append_empty (s : string) : s ++ "" = s.
Proof. induction s as [ | c s IH ]; cbn; [ | rewrite IH ]; reflexivity. Qed.

Lemma add_risk_line_run (risk_text : string) (entry : Z * Risk.t)
    (text : string) :
  Twitter.add_risk_line risk_text entry = Ok text ->
  exists row, row_text entry = Some row /\ text = risk_text ++ row.
Proof.
  destruct entry as [idx [name level value sc]].
  unfold Twitter.add_risk_line, row_text. cbn [fst snd Risk.name Risk.level
    Risk.value].
  destruct name as [ name | ]; [ | discriminate ].
  destruct level as [ level | ]; [ | discriminate ].
  destruct value as [ value | ]; [ | discriminate ].
  cbn [item Py.bind]. intros [= <-]. eexists. split; [ reflexivity | ].
  destruct (truthy value); flatten_text; reflexivity.
Qed.

Lemma summary_rows (entries : list (Z * Risk.t)) (risk_text text : string) :
  for_each Twitter.add_risk_line entries risk_text = Ok text ->
  exists rows,
    Forall2 (fun entry row => row_text entry = Some row) entries rows
    /\ text = risk_text ++ String.concat "" rows.
Proof.
  revert risk_text.
  induction entries as [ | entry rest IH ]; intros risk_text Hrun.
  - injection Hrun as <-. exists []. split; [ constructor | ].
    cbn. now rewrite append_empty.
  - cbn [for_each] in Hrun.
    destruct (Twitter.add_risk_line risk_text entry) as [ text1 | e ] eqn:Hrow;
      [ | discriminate ].
    cbn [Py.bind] in Hrun.
    apply add_risk_line_run in Hrow. destruct Hrow as (row & Hrow & ->).
    apply IH in Hrun. destruct Hrun as (rows & Hrows & ->).
    exists (row :: rows). split; [ now constructor | ].
    rewrite append_assoc. f_equal.
    destruct rows as [ | row' rows ]; cbn; [ now rewrite append_empty | ].
    reflexivity.
Qed.

(** Conversely, a report that has its two keys, and whose first three
    findings have their three keys, does get its summary. *)
Lemma add_risk_line_total (risk_text : string) (entry : Z * Risk.t)
    (row : string) :
  row_text entry = Some row ->
  Twitter.add_risk_line risk_text entry = Ok (risk_text ++ row).
Proof.
  destruct entry as [idx [name level value sc]].
  unfold Twitter.add_risk_line, row_text.
  cbn [fst snd Risk.name Risk.level Risk.value].
  destruct name as [ name | ]; [ | discriminate ].
  destruct level as [ level | ]; [ | discriminate ].
  destruct value as [ value | ]; [ | discriminate ].
  intros [= <-]. cbn [item Py.bind]. f_equal.
  destruct (truthy value); flatten_text; reflexivity.
Qed.

Lemma summary_rows_total (entries : list (Z * Risk.t)) (rows : list string)
    (risk_text : string) :
  Forall2 (fun entry row => row_text entry = Some row) entries rows ->
  for_each Twitter.add_risk_line entries risk_text
  = Ok (risk_text ++ String.concat "" rows).
Proof.
  intros Hrows. revert risk_text.
  induction Hrows as [ | entry row entries rows Hrow _ IH ]; intros risk_text.
  - cbn. now rewrite append_empty.
  - cbn [for_each]. rewrite (add_risk_line_total _ _ _ Hrow).
    cbn [Py.bind]. rewrite IH, append_assoc. do 2 f_equal.
    destruct rows as [ | row' rows ]; cbn; [ now rewrite append_empty | ].
    reflexivity.
Qed.

Lemma create_report_text_total (normalized_score : Z)
    (findings : list Risk.t) (token_address : string) (rows : list string) :
  Forall2 (fun entry row => row_text entry = Some row)
          (enumerate (firstn 3 findings)) rows ->
  Twitter.create_report_text
    {| Report.normalized_score := Some normalized_score;
       Report.risks := Some findings |} token_address
  = Ok ("Token: " ++ slice token_address None (Some 6) ++ "..."
        ++ slice token_address (Some (-4)) None ++ Twitter.newline
        ++ "Risk Score: " ++ str normalized_score ++ "/100 ("
        ++ risk_level_label normalized_score ++ ")"
        ++ Twitter.newline ++ Twitter.newline
        ++ "Top Risks:" ++ Twitter.newline ++ String.concat "" rows).
Proof.
  intros Hrows. unfold Twitter.create_report_text.
  cbn [Report.risks Report.normalized_score item Py.bind].
  change (take 3 findings) with (firstn 3 findings).
  rewrite (summary_rows_total _ _ _ Hrows). cbn [Py.bind]. reflexivity.
Qed.

Example scenario_summary :
  Twitter.create_report_text Sample.scenario Sample.address
  = Ok ("Token: So1111...1112" ++ Twitter.newline
        ++ "Risk Score: 85/100 (HIGH RISK)" ++ Twitter.newline
        ++ Twitter.newline
        ++ "Top Risks:" ++ Twitter.newline
        ++ "1. Mint Authority Enabled: DANGER" ++ Twitter.newline).
Proof. reflexivity. Qed.

(** C6: whatever the length of the risks list, both renderers read only
    its first three entries, in order.  The image renderer and the text
    renderer behave on the whole list exactly as on its first three
    entries; the lines of the text summary are the numbered lines of
    these entries, in their order; a frame of the image renderer holds
    these entries and the draw pass draws one score bar for each. *)
Theorem first_three_findings_only (textbbox : font -> string -> bbox)
    (wrap : string -> Z -> list string) (normalized_score : option Z)
    (findings : list Risk.t) (token_address : string) :
  let report :=
    {| Report.normalized_score := normalized_score;
       Report.risks := Some findings |} in
  let first_three :=
    {| Report.normalized_score := normalized_score;
       Report.risks := Some (firstn 3 findings) |} in
  (forall w,
     create_report_image textbbox wrap report token_address w
     = create_report_image textbbox wrap first_three token_address w)
  /\ Twitter.create_report_text report token_address
     = Twitter.create_report_text first_three token_address
  /\ match Twitter.create_report_text report token_address with
     | Ok text =>
         exists header rows,
           text = header ++ String.concat "" rows
           /\ Forall2 (fun entry row => row_text entry = Some row)
                      (enumerate (firstn 3 findings)) rows
           /\ (List.length rows <= 3)%nat
     | Raise _ => True
     end
  /\ (forall fs now final_height,
        match measure_pass textbbox wrap fs now report token_address with
        | Ok fr =>
            risks fr = firstn 3 findings
            /\ bars (fst (draw_pass textbbox wrap fs fr final_height))
               = List.length (firstn 3 findings)
        | Raise _ => True
        end)
  /\ (List.length (firstn 3 findings) <= 3)%nat.
Proof.
  intros report first_three.
  assert (Hmeasure : forall fs now,
            measure_pass textbbox wrap fs now report token_address
            = measure_pass textbbox wrap fs now first_three token_address).
  { intros fs now. unfold measure_pass, report, first_three.
    cbn [Report.risks Report.normalized_score get].
    change (firstn 3 findings) with (take 3 findings). now rewrite take_take. }
  split; [ | split; [ | split; [ | split ] ] ].
  - intros w. rewrite !create_report_image_run. cbv zeta.
    now rewrite Hmeasure.
  - unfold Twitter.create_report_text, report, first_three.
    cbn [Report.risks item Py.bind].
    change (firstn 3 findings) with (take 3 findings). now rewrite take_take.
  - unfold Twitter.create_report_text, report.
    cbn [Report.risks Report.normalized_score item Py.bind].
    destruct (for_each Twitter.add_risk_line (enumerate (take 3 findings)) "")
      as [ risk_text | e ] eqn:Hrows; cbn [Py.bind]; trivial.
    destruct normalized_score as [ sc | ]; cbn [item Py.bind]; trivial.
    apply summary_rows in Hrows. destruct Hrows as (rows & Hrows & ->).
    set (label := if sc >? 66 then _ else _).
    exists ("Token: " ++ slice token_address None (Some 6) ++ "..."
            ++ slice token_address (Some (-4)) None ++ Twitter.newline
            ++ "Risk Score: " ++ str sc ++ "/100 (" ++ label ++ ")"
            ++ Twitter.newline ++ Twitter.newline
            ++ "Top Risks:" ++ Twitter.newline), rows.
    split; [ | split ].
    + flatten_text. reflexivity.
    + exact Hrows.
    + apply Forall2_length in Hrows. rewrite <- Hrows, enumerate_length.
      apply take_length.
  - intros fs now final_height.
    destruct (measure_pass textbbox wrap fs now report token_address)
      as [ fr | e ] eqn:Hrun; trivial.
    apply measure_pass_frame in Hrun. destruct Hrun as (Hrisks & _).
    rewrite bars_draw_pass, Hrisks. split; reflexivity.
  - apply firstn_le_length.
Qed.

(* ================================================================= *)
(** ** Canvas height and the two passes (C1) *)

(** The final canvas is never lower than 800 pixels. *)
Lemma final_height_at_least_800 (fr : frame) :
  800 <= Z.max min_height (y_position fr)
  /\ Z.max min_height (y_position fr) = Z.max 800 (y_position fr).
Proof. unfold min_height. split; [ lia | reflexivity ]. Qed.

Section Passes.

Variable textbbox : font -> string -> bbox.
Variable wrap : string -> Z -> list string.

(** Where the draw pass stops when the frame has no finding. *)
Lemma draw_pass_offset_without_findings (fs : fontset) (fr : frame)
    (final_height : Z) :
  risks fr = [] ->
  snd (draw_pass textbbox wrap fs fr final_height)
  = 40 + (title_height fr + 15) + (address_height fr + 15)
    + (timestamp_height fr + 15) + (120 + 15 + 30)
    + (risk_label_height fr + 15).
Proof.
  intros Hnone. rewrite draw_pass_run, Hnone. reflexivity.
Qed.

(** Without findings the measure pass counts the larger of the gauge and
    the label, the disclaimer lines and the bottom margin; the draw pass
    counts the gauge and the "Top Risks:" header instead. *)
Lemma pass_offsets_without_findings (fs : fontset) (now : string)
    (report_data : Report.t) (token_address : string) (final_height : Z) :
  get (Report.risks report_data) [] = [] ->
  exists fr,
    measure_pass textbbox wrap fs now report_data token_address = Ok fr
    /\ y_position fr - snd (draw_pass textbbox wrap fs fr final_height)
       = Z.max 120 (risk_label_height fr) - 120
         + add_line_heights textbbox (small_font fs)
             (wrap disclaimer_text 110) 0
         + 40 - (risk_label_height fr + 15).
Proof.
  intros Hnone. eexists. split.
  - apply measure_pass_no_findings, Hnone.
  - rewrite draw_pass_offset_without_findings by reflexivity.
    cbn [y_position title_height address_height timestamp_height
         risk_label_height].
    unfold measured_without_findings, top_margin, vertical_spacing,
      bottom_margin, circle_height, circle_radius.
    lia.
Qed.

(** For one finding, had [i] been bound, the measuring loop would add 45
    pixels after the level line where the drawing loop adds 55. *)
Lemma row_offsets_with_bound_index (fs : fontset) (i y : Z) (label : string)
    (risk : Risk.t) :
  exists y',
    measure_risk textbbox wrap fs (Some i) (y, label) risk
    = Ok (y', upper (get (Risk.level risk) "unknown"))
    /\ row_end textbbox wrap fs y (i, risk) = y' + 10.
Proof.
  unfold measure_risk, row_end. cbn [load_local Py.bind fst snd].
  destruct (wrap_risk_name wrap fs i (get (Risk.name risk) "Unknown Risk"))
    as [f lines].
  eexists. split; [ reflexivity | ].
  cbn [fst snd]. unfold vertical_spacing. lia.
Qed.

End Passes.

(** C1, on the code: for the report of the end-to-end scenario (score 85,
    one finding) the measure pass does not complete.  It raises at its
    first finding, the call raises with it, and no final canvas is
    created.  For a report without findings the call completes, on a
    canvas of height [max(800, measured)], but the two passes stop at
    different offsets: with lines as tall as their font size the measure
    pass ends at 413 and the draw pass at 399. *)
Theorem measure_pass_fails_on_scenario :
  (forall textbbox wrap fs now token_address,
     measure_pass textbbox wrap fs now Sample.scenario token_address
     = Raise (UnboundLocalError "i"))
  /\ (forall textbbox wrap token_address w,
        let out :=
          create_report_image textbbox wrap Sample.scenario token_address w in
        fst out = Raise (UnboundLocalError "i")
        /\ canvases (snd out) = (canvases w ++ [(1200, 800)])%list)
  /\ (exists fr,
        measure_pass Sample.textbbox Sample.wrap dejavu
          (strftime Sample.noon) Sample.no_findings Sample.address = Ok fr
        /\ y_position fr = 413
        /\ canvases
             (snd (create_report_image Sample.textbbox Sample.wrap
                     Sample.no_findings Sample.address Sample.fresh))
           = [(1200, 800); (1200, 800)]
        /\ snd (draw_pass Sample.textbbox Sample.wrap dejavu fr 800) = 399).
Proof.
  split; [ | split ].
  - intros. apply measure_pass_findings. discriminate.
  - intros textbbox wrap token_address w out. subst out.
    rewrite create_report_image_run.
    rewrite measure_pass_findings by discriminate.
    split; reflexivity.
  - eexists. split; [ vm_compute; reflexivity | ].
    repeat split; vm_compute; reflexivity.
Qed.

(* ================================================================= *)
(** ** Re-wrapping long names (C3) *)

Section Rewrap.

Variable textbbox : font -> string -> bbox.
Variable wrap : string -> Z -> list string.

(** The re-wrap decision of lines 106-110 and 188-192, for a bound [i]:
    a numbered name of more than two lines at 55 characters is wrapped
    again at 73 characters and set in the small font. *)
Lemma long_name_rewrapped (fs : fontset) (i : Z) (risk_name : string) :
  (2 < List.length (wrap (str (i + 1) ++ ". " ++ risk_name) 55))%nat ->
  wrap_risk_name wrap fs i risk_name
  = (small_font fs, wrap (str (i + 1) ++ ". " ++ risk_name) 73).
Proof.
  intros Hlong. unfold wrap_risk_name.
  change (int (truediv content_width 20)) with 55.
  change (int (truediv content_width 15)) with 73.
  rewrite Z.gtb_ltb.
  destruct (Z.ltb_spec 2
              (Z.of_nat (List.length
                           (wrap (str (i + 1) ++ ". " ++ risk_name) 55))));
    [ reflexivity | lia ].
Qed.

(** The drawing loop sets such a name in the small font and moves down
    by the small font's line heights. *)
Lemma long_name_drawn_small (fs : fontset) (i y : Z) (risk : Risk.t) :
  let numbered :=
    str (i + 1) ++ ". " ++ get (Risk.name risk) "Unknown Risk" in
  (2 < List.length (wrap numbered 55))%nat ->
  exists rest,
    row_ops textbbox wrap fs y (i, risk)
    = (name_ops textbbox (small_font fs) (wrap numbered 73) y ++ rest)%list
    /\ row_end textbbox wrap fs y (i, risk)
       = add_line_heights textbbox (small_font fs) (wrap numbered 73) y
         + (text_height textbbox (normal_font fs)
              (level_line (upper (get (Risk.level risk) "unknown"))
                          (get (Risk.value risk) "")) + 5)
         + (40 + vertical_spacing).
Proof.
  intros numbered Hlong. unfold row_ops, row_end. cbn [fst snd].
  rewrite long_name_rewrapped by exact Hlong. cbn [fst snd].
  eexists. split; reflexivity.
Qed.

End Rewrap.

(** C3, on the code: a finding whose numbered name takes three lines at
    55 characters is re-wrapped at 73 characters in the small font by the
    drawing loop, but the measuring loop never wraps it.  Its turn
    raises before the first [textwrap.wrap] call, so no height, of either
    font, is accumulated for the name, and the drawing loop is never
    reached. *)
Theorem long_name_not_measured :
  List.length (Sample.wrap ("1. " ++ Sample.long_name) 55) = 3%nat
  /\ (forall fs,
        wrap_risk_name Sample.wrap fs 0 Sample.long_name
        = (small_font fs, Sample.wrap ("1. " ++ Sample.long_name) 73))
  /\ (forall textbbox wrap fs st,
        measure_risk textbbox wrap fs None st Sample.long_finding
        = Raise (UnboundLocalError "i"))
  /\ (forall textbbox wrap fs now token_address,
        measure_pass textbbox wrap fs now Sample.long_report token_address
        = Raise (UnboundLocalError "i"))
  /\ (forall textbbox wrap token_address w,
        fst (create_report_image textbbox wrap Sample.long_report
               token_address w)
        = Raise (UnboundLocalError "i")).
Proof.
  split; [ vm_compute; reflexivity | ].
  split; [ intros fs; apply long_name_rewrapped; vm_compute; lia | ].
  split; [ reflexivity | ].
  split.
  - intros. apply measure_pass_findings. discriminate.
  - intros. rewrite create_report_image_run.
    rewrite measure_pass_findings by discriminate. reflexivity.
Qed.

(* ================================================================= *)
(** ** [twitter.py]: reading a mention *)

Module Mentions.

(** [c] lies between [lo] and [hi], the bounds of a range of a character
    class. *)
Definition between (lo hi c : ascii) : bool :=
  (Nat.leb (nat_of_ascii lo) (nat_of_ascii c)
   && Nat.leb (nat_of_ascii c) (nat_of_ascii hi))%bool.

(** The character class [[1-9A-HJ-NP-Za-km-z]]. *)
Definition base58 (c : ascii) : bool :=
  (between "1" "9" c || between "A" "H" c || between "J" "N" c
   || between "P" "Z" c || between "a" "k" c || between "m" "z" c)%bool.

(** How many characters of the class [s] starts with. *)
Fixpoint run_length (s : string) : nat :=
  match s with
  | EmptyString => 0
  | String c s' => if base58 c then S (run_length s') else 0
  end.

(** The first [n] characters of [s], and [s] without them. *)
Fixpoint first_chars (n : nat) (s : string) : string :=
  match n, s with
  | S n', String c s' => String c (first_chars n' s')
  | _, _ => EmptyString
  end.

Fixpoint skip_chars (n : nat) (s : string) : string :=
  match n, s with
  | S n', String _ s' => skip_chars n' s'
  | _, _ => s
  end.

(** [re.findall(r'[1-9A-HJ-NP-Za-km-z]{32,44}', text)]: the scan goes
    left to right; where at least 32 characters of the class start, the
    greedy repetition takes as many of them as there are, up to 44, and
    the scan resumes after them; elsewhere it moves on by one character.
    [inside] counts the characters left of the match being stepped
    over. *)
Fixpoint scan (s : string) (inside : nat) : list string :=
  match s with
  | EmptyString => []
  | String _ s' =>
      match inside with
      | S k => scan s' k
      | O =>
          let n := Nat.min (run_length s) 44 in
          if Nat.leb 32 n then first_chars n s :: scan s' (n - 1)
          else scan s' 0
      end
  end.

Definition findall_token (text : string) : list string := scan text 0.

(** [l[-1] if l else None] *)
Definition last_or_none {A} (l : list A) : option A :=
  match rev l with
  | [] => None
  | x :: _ => Some x
  end.

(** [extract_token_address(text)] *)
Definition extract_token_address (text : string) : option string :=
  let token_matches := findall_token text in
  last_or_none token_matches.

(** [s.lower()] on the ASCII letters. *)
Definition lower_char (c : ascii) : ascii :=
  let n := nat_of_ascii c in
  if (Nat.leb 65 n && Nat.leb n 90)%bool then ascii_of_nat (n + 32) else c.

Fixpoint lower (s : string) : string :=
  match s with
  | EmptyString => EmptyString
  | String c s' => String (lower_char c) (lower s')
  end.

(** [needle in text] on strings. *)
Fixpoint contains (needle text : string) : bool :=
  (prefix needle text
   || match text with
      | EmptyString => false
      | String _ text' => contains needle text'
      end)%bool.

(** [extract_vote_request(text)]: the pair it returns. *)
Definition extract_vote_request (text : string)
    : option string * option bool :=
  let text_lower := lower text in
  let token_matches := findall_token text in
  let token_address := last_or_none token_matches in
  match token_address with
  | None => (None, None)
  | Some token =>
      if negb (truthy token) then (None, None)
      else if (contains "vote up" text_lower
               || contains "upvote" text_lower)%bool
      then (token_address, Some true)
      else if (contains "vote down" text_lower
               || contains "downvote" text_lower)%bool
      then (token_address, Some false)
      else (None, None)
  end.

End Mentions.

(* ================================================================= *)
(** ** Token addresses in a mention *)

Import Mentions.

(** Every character of [s] is in the class. *)
Fixpoint all_base58 (s : string) : bool :=
  match s with
  | EmptyString => true
  | String c s' => (base58 c && all_base58 s')%bool
  end.

(** [m] occurs in [s] as a run of consecutive characters. *)
Definition occurs (m s : string) : Prop :=
  exists before after, s = before ++ m ++ after.

Lemma run_length_le (s : string) : (run_length s <= String.length s)%nat.
Proof.
  induction s as [ | c s IH ]; cbn; [ lia | ].
  destruct (base58 c); lia.
Qed.

Lemma run_length_all (s : string) :
  all_base58 s = true -> run_length s = String.length s.
Proof.
  induction s as [ | c s IH ]; cbn; [ reflexivity | ].
  destruct (base58 c); cbn; [ | discriminate ].
  intros Hs. now rewrite IH.
Qed.

Lemma run_length_app (w rest : string) :
  all_base58 w = true ->
  run_length (w ++ rest) = (String.length w + run_length rest)%nat.
Proof.
  induction w as [ | c w IH ]; cbn; [ reflexivity | ].
  destruct (base58 c); cbn; [ | discriminate ].
  intros Hw. now rewrite IH.
Qed.

Lemma first_chars_length (n : nat) (s : string) :
  (n <= String.length s)%nat -> String.length (first_chars n s) = n.
Proof.
  revert s. induction n as [ | n IH ]; intros s Hn; [ now destruct s | ].
  destruct s as [ | c s ]; cbn in *; [ lia | ].
  rewrite IH; lia.
Qed.

Lemma first_chars_base58 (n : nat) (s : string) :
  (n <= run_length s)%nat -> all_base58 (first_chars n s) = true.
Proof.
  revert s. induction n as [ | n IH ]; intros s Hn; [ now destruct s | ].
  destruct s as [ | c s ]; cbn in *; [ reflexivity | ].
  destruct (base58 c); cbn; [ apply IH; lia | lia ].
Qed.

Lemma first_skip_chars (n : nat) (s : string) :
  first_chars n s ++ skip_chars n s = s.
Proof.
  revert s. induction n as [ | n IH ]; intros s; [ now destruct s | ].
  destruct s as [ | c s ]; cbn; [ reflexivity | ]. now rewrite IH.
Qed.

Lemma first_chars_app (w rest : string) :
  first_chars (String.length w) (w ++ rest) = w.
Proof. induction w as [ | c w IH ]; cbn; [ now destruct rest | now rewrite IH ]. Qed.

Lemma skip_chars_app (w rest : string) :
  skip_chars (String.length w) (w ++ rest) = rest.
Proof. induction w as [ | c w IH ]; cbn; [ reflexivity | exact IH ]. Qed.

Lemma skip_chars_length (n : nat) (s : string) :
  String.length (skip_chars n s) = (String.length s - n)%nat.
Proof.
  revert s. induction n as [ | n IH ]; intros s; [ cbn; destruct s; cbn; lia | ].
  destruct s as [ | c s ]; cbn; [ reflexivity | apply IH ].
Qed.

Lemma skip_chars_base58 (n : nat) (s : string) :
  all_base58 s = true -> all_base58 (skip_chars n s) = true.
Proof.
  revert s. induction n as [ | n IH ]; intros s Hs; [ now destruct s | ].
  destruct s as [ | c s ]; cbn in *; [ reflexivity | ].
  apply IH. now apply andb_prop in Hs.
Qed.

Lemma length_app_string (a b : string) :
  String.length (a ++ b) = (String.length a + String.length b)%nat.
Proof. induction a as [ | c a IH ]; cbn; [ | rewrite IH ]; reflexivity. Qed.

Lemma substring_length (n m : nat) (s : string) :
  String.length (substring n m s) = Nat.min m (String.length s - n).
Proof.
  revert n m. induction s as [ | c s IH ]; intros n m.
  - destruct n, m; reflexivity.
  - destruct n as [ | n ].
    + destruct m as [ | m ]; [ reflexivity | ]. cbn. now rewrite IH, Nat.sub_0_r.
    + cbn. apply IH.
Qed.

Lemma occurs_later (c : ascii) (m s : string) :
  occurs m s -> occurs m (String c s).
Proof. intros (before & after & ->). now exists (String c before), after. Qed.

(** Stepping over the rest of a match is skipping its characters. *)
Lemma scan_inside (s : string) (k : nat) :
  (k <= String.length s)%nat -> scan s k = scan (skip_chars k s) 0.
Proof.
  revert k. induction s as [ | c s IH ]; intros k Hk.
  - now destruct k.
  - destruct k as [ | k ]; [ reflexivity | ].
    cbn [scan skip_chars]. apply IH. cbn in Hk. lia.
Qed.

(** A text of fewer than 32 characters has no match. *)
Lemma scan_short (s : string) :
  (String.length s < 32)%nat -> scan s 0 = [].
Proof.
  induction s as [ | c s IH ]; intros Hs; [ reflexivity | ].
  cbn [scan].
  pose proof (run_length_le (String c s)) as Hrun.
  destruct (Nat.leb_spec 32 (Nat.min (run_length (String c s)) 44));
    [ lia | ].
  apply IH. cbn in Hs. lia.
Qed.

(** Every match is 32 to 44 characters of the class, found in the text. *)
Lemma scan_sound (s : string) (k : nat) :
  Forall (fun m => (32 <= String.length m <= 44)%nat
                   /\ all_base58 m = true /\ occurs m s) (scan s k).
Proof.
  revert k. induction s as [ | c s IH ]; intros k; [ constructor | ].
  assert (Hlater : forall k',
            Forall (fun m => (32 <= String.length m <= 44)%nat
                             /\ all_base58 m = true
                             /\ occurs m (String c s)) (scan s k')).
  { intros k'. eapply Forall_impl; [ | apply IH ].
    intros m (Hlen & Hclass & Hocc). auto using occurs_later. }
  cbn [scan]. destruct k as [ | k ]; [ | apply Hlater ].
  set (n := Nat.min (run_length (String c s)) 44).
  destruct (Nat.leb_spec 32 n) as [Hn | Hn]; [ | apply Hlater ].
  constructor; [ | apply Hlater ].
  pose proof (run_length_le (String c s)) as Hrun.
  split; [ | split ].
  - rewrite first_chars_length; lia.
  - apply first_chars_base58. lia.
  - exists "", (skip_chars n (String c s)).
    now rewrite first_skip_chars.
Qed.

Lemma last_or_none_In {A} (l : list A) (x : A) :
  last_or_none l = Some x -> In x l.
Proof.
  unfold last_or_none. destruct (rev l) as [ | y r ] eqn:Hrev;
    [ discriminate | ].
  intros [= <-]. apply in_rev. rewrite Hrev. now left.
Qed.

Lemma last_or_none_snoc {A} (l : list A) (x : A) :
  last_or_none (l ++ [x]) = Some x.
Proof. unfold last_or_none. now rewrite rev_app_distr. Qed.

Lemma last_or_none_nil {A} (l : list A) :
  last_or_none l = None <-> l = [].
Proof.
  unfold last_or_none. split.
  - destruct (rev l) as [ | y r ] eqn:Hrev; [ | discriminate ].
    intros _. apply (f_equal (@rev A)) in Hrev.
    now rewrite rev_involutive in Hrev.
  - now intros ->.
Qed.

(** The token [extract_token_address] returns is one of the matches. *)
Lemma extracted_token_matched (text token : string) :
  extract_token_address text = Some token -> In token (scan text 0).
Proof. apply last_or_none_In. Qed.

(** Whatever [extract_token_address] returns is 32 to 44 characters of
    the base58 class and stands in the text as it is returned, letter
    case included. *)
Theorem extracted_token_is_an_address (text token : string) :
  extract_token_address text = Some token ->
  (32 <= String.length token <= 44)%nat
  /\ all_base58 token = true
  /\ occurs token text.
Proof.
  intros Hsome. apply extracted_token_matched in Hsome.
  pose proof (scan_sound text 0) as Hall.
  rewrite Forall_forall in Hall. apply Hall, Hsome.
Qed.

Lemma extracted_token_is_an_address_witness :
  extract_token_address
    "check So11111111111111111111111111111111111111112 please"
  = Some "So11111111111111111111111111111111111111112"
  /\ (32 <= String.length "So11111111111111111111111111111111111111112"
      <= 44)%nat.
Proof.
  split; [ reflexivity | ].
  apply (extracted_token_is_an_address
           "check So11111111111111111111111111111111111111112 please"
           "So11111111111111111111111111111111111111112").
  reflexivity.
Defined.

(** Where no 32 characters of the class stand in a row, nothing
    matches. *)
Lemma scan_nothing (s : string) :
  scan s 0 = [] ->
  forall w, String.length w = 32%nat -> all_base58 w = true -> ~ occurs w s.
Proof.
  induction s as [ | c s IH ]; intros Hscan w Hlen Hclass (before & after & Hs).
  - destruct before; [ destruct w; discriminate | discriminate ].
  - cbn [scan] in Hscan.
    destruct (Nat.leb_spec 32 (Nat.min (run_length (String c s)) 44))
      as [ | Hrun ]; [ discriminate | ].
    destruct before as [ | b before ].
    + cbn [String.append] in Hs. rewrite Hs in Hrun.
      rewrite run_length_app in Hrun by exact Hclass. lia.
    + injection Hs as _ Hs.
      apply (IH Hscan w Hlen Hclass). now exists before, after.
Qed.

(** [extract_token_address] returns [None] exactly when the text has no
    32 characters of the base58 class in a row. *)
Theorem no_token_without_32_in_a_row (text : string) :
  extract_token_address text = None
  <-> ~ exists w, String.length w = 32%nat /\ all_base58 w = true
                  /\ occurs w text.
Proof.
  unfold extract_token_address, findall_token. rewrite last_or_none_nil.
  split.
  - intros Hscan (w & Hlen & Hclass & Hocc).
    exact (scan_nothing text Hscan w Hlen Hclass Hocc).
  - intros Hnone. destruct (scan text 0) as [ | m rest ] eqn:Hscan;
      [ reflexivity | exfalso ].
    pose proof (scan_sound text 0) as Hall. rewrite Hscan in Hall.
    apply Forall_inv in Hall. destruct Hall as (Hlen & Hclass & Hocc).
    apply Hnone. exists (first_chars 32 m). split; [ | split ].
    + apply first_chars_length. lia.
    + apply first_chars_base58. rewrite run_length_all by exact Hclass. lia.
    + destruct Hocc as (before & after & ->).
      exists before, (skip_chars 32 m ++ after).
      rewrite <- (first_skip_chars 32 m) at 1.
      now rewrite append_assoc.
Qed.

(** An address followed by something outside the class is matched
    whole. *)
Lemma scan_address (address after : string) :
  all_base58 address = true ->
  (32 <= String.length address <= 44)%nat ->
  run_length after = 0%nat ->
  scan after 0 = [] ->
  scan (address ++ after) 0 = [address].
Proof.
  intros Hclass Hlen Hstop Hafter.
  assert (Hrun : run_length (address ++ after) = String.length address)
    by (rewrite run_length_app, Hstop by exact Hclass; lia).
  destruct address as [ | a rest ]; [ cbn in Hlen; lia | ].
  cbn [String.append scan].
  change (String a (rest ++ after)) with (String a rest ++ after).
  rewrite Hrun, Nat.min_l by lia.
  destruct (Nat.leb_spec 32 (String.length (String a rest))); [ | lia ].
  rewrite first_chars_app. f_equal.
  cbn [String.length].
  replace (S (String.length rest) - 1)%nat with (String.length rest) by lia.
  rewrite scan_inside by (rewrite length_app_string; lia).
  now rewrite skip_chars_app.
Qed.

Lemma scan_up_to_address (before : string) (sep : ascii)
    (address after : string) (k : nat) :
  base58 sep = false ->
  all_base58 address = true ->
  (32 <= String.length address <= 44)%nat ->
  run_length after = 0%nat ->
  scan after 0 = [] ->
  (k <= run_length (before ++ String sep (address ++ after)))%nat ->
  exists earlier,
    scan (before ++ String sep (address ++ after)) k
    = (earlier ++ [address])%list.
Proof.
  intros Hsep Hclass Hlen Hstop Hafter. revert k.
  induction before as [ | c before IH ]; intros k Hk.
  - cbn [String.append run_length] in *. rewrite Hsep in *.
    assert (k = 0%nat) as -> by lia.
    cbn [scan run_length]. rewrite Hsep. cbn [Nat.min Nat.leb].
    exists []. now apply scan_address.
  - cbn [String.append] in *. cbn [scan].
    cbn [run_length] in Hk.
    destruct k as [ | k ].
    + set (n := Nat.min (run_length (String c (before ++ String sep (address ++ after)))) 44).
      destruct (Nat.leb_spec 32 n) as [Hn | Hn]; [ | apply IH; lia ].
      destruct (IH (n - 1)%nat) as (earlier & Hscan).
      { subst n. cbn [run_length] in *. destruct (base58 c); cbn in Hn; lia. }
      rewrite Hscan. eexists (_ :: earlier). reflexivity.
    + destruct (base58 c); [ | lia ]. apply IH. lia.
Qed.

(** A well-formed address (32 to 44 characters of the class) that
    follows a character outside the class, and after which the text ends
    or goes on outside the class without a further match, is the token
    extracted, whatever stands before it: the last address wins. *)
Theorem last_address_is_extracted (before : string) (sep : ascii)
    (address after : string) :
  base58 sep = false ->
  all_base58 address = true ->
  (32 <= String.length address <= 44)%nat ->
  run_length after = 0%nat ->
  findall_token after = [] ->
  extract_token_address (before ++ String sep (address ++ after))
  = Some address.
Proof.
  intros Hsep Hclass Hlen Hstop Hafter.
  destruct (scan_up_to_address before sep address after 0
              Hsep Hclass Hlen Hstop Hafter) as (earlier & Hscan); [ lia | ].
  unfold extract_token_address, findall_token.
  rewrite Hscan. apply last_or_none_snoc.
Qed.

Lemma last_address_is_extracted_witness :
  (base58 " " = false
   /\ all_base58 "So11111111111111111111111111111111111111112" = true
   /\ (32 <= String.length "So11111111111111111111111111111111111111112"
       <= 44)%nat
   /\ run_length " please" = 0%nat
   /\ findall_token " please" = [])
  /\ extract_token_address
       ("risks of 4k3Dyjzvzp8eMZWUXbBCjEvwSkkk59S5iCNLY3QrkX6R or"
        ++ String " " ("So11111111111111111111111111111111111111112"
                       ++ " please"))
     = Some "So11111111111111111111111111111111111111112".
Proof.
  split; [ repeat split; cbn; lia | ].
  apply (last_address_is_extracted
           "risks of 4k3Dyjzvzp8eMZWUXbBCjEvwSkkk59S5iCNLY3QrkX6R or" " "
           "So11111111111111111111111111111111111111112" " please");
    try reflexivity.
  cbn. lia.
Defined.

(** A run of 45 to 75 characters of the class is not rejected as too
    long for an address: its first 44 characters are returned. *)
Theorem overlong_run_is_cut_at_44 (text : string) :
  all_base58 text = true ->
  (44 < String.length text < 76)%nat ->
  extract_token_address text = Some (first_chars 44 text).
Proof.
  intros Hclass Hlen.
  unfold extract_token_address, findall_token.
  destruct text as [ | c rest ] eqn:Htext; [ cbn in Hlen; lia | ].
  rewrite <- Htext in *.
  assert (Hscan : scan text 0 = [first_chars 44 text]).
  { rewrite Htext at 1. cbn [scan]. rewrite <- Htext.
    rewrite run_length_all by exact Hclass.
    rewrite Nat.min_r by lia. cbn [Nat.leb Nat.sub]. f_equal.
    assert (Hrest : String.length rest = (String.length text - 1)%nat)
      by (subst; cbn; lia).
    rewrite scan_inside by lia.
    apply scan_short. rewrite skip_chars_length. lia. }
  rewrite Hscan. reflexivity.
Qed.

Lemma overlong_run_is_cut_at_44_witness :
  (all_base58 "So11111111111111111111111111111111111111112So1111111" = true
   /\ (44 < String.length
              "So11111111111111111111111111111111111111112So1111111"
       < 76)%nat)
  /\ extract_token_address
       "So11111111111111111111111111111111111111112So1111111"
     = Some "So11111111111111111111111111111111111111112S".
Proof.
  split; [ split; [ reflexivity | cbn; lia ] | ].
  apply (overlong_run_is_cut_at_44
           "So11111111111111111111111111111111111111112So1111111");
    [ reflexivity | cbn; lia ].
Defined.

(** The keyword tests of [extract_vote_request]. *)
Definition asks_up (text : string) : bool :=
  (contains "vote up" (lower text) || contains "upvote" (lower text))%bool.

Definition asks_down (text : string) : bool :=
  (contains "vote down" (lower text) || contains "downvote" (lower text))%bool.

Lemma address_truthy (token : string) :
  (32 <= String.length token)%nat -> truthy token = true.
Proof. destruct token; cbn; [ lia | reflexivity ]. Qed.

Lemma vote_request_cases (text : string) :
  extract_vote_request text
  = match extract_token_address text with
    | None => (None, None)
    | Some token =>
        if asks_up text then (Some token, Some true)
        else if asks_down text then (Some token, Some false)
        else (None, None)
    end.
Proof.
  unfold extract_vote_request, asks_up, asks_down.
  fold (extract_token_address text).
  destruct (extract_token_address text) as [ token | ] eqn:Htoken;
    [ | reflexivity ].
  apply extracted_token_matched in Htoken.
  pose proof (scan_sound text 0) as Hall.
  rewrite Forall_forall in Hall. apply Hall in Htoken.
  rewrite address_truthy by lia. reflexivity.
Qed.

(** With a token in the text, an up-vote keyword decides the side, in
    any letter case and also when a down-vote keyword is present. *)
Theorem up_vote_wins (text token : string) :
  extract_token_address text = Some token ->
  asks_up text = true ->
  extract_vote_request text = (Some token, Some true).
Proof.
  intros Htoken Hup. now rewrite vote_request_cases, Htoken, Hup.
Qed.

Lemma up_vote_wins_witness :
  (extract_token_address
     "DOWNVOTE? no: UpVote So11111111111111111111111111111111111111112"
   = Some "So11111111111111111111111111111111111111112"
   /\ asks_up
        "DOWNVOTE? no: UpVote So11111111111111111111111111111111111111112"
      = true
   /\ asks_down
        "DOWNVOTE? no: UpVote So11111111111111111111111111111111111111112"
      = true)
  /\ extract_vote_request
       "DOWNVOTE? no: UpVote So11111111111111111111111111111111111111112"
     = (Some "So11111111111111111111111111111111111111112", Some true).
Proof.
  split; [ repeat split | ].
  apply (up_vote_wins
           "DOWNVOTE? no: UpVote So11111111111111111111111111111111111111112"
           "So11111111111111111111111111111111111111112"); reflexivity.
Defined.

(** [extract_vote_request] returns a token and a side together or
    neither.  The token is the one [extract_token_address] finds in the
    text as written; the side is up exactly when the lower-cased text
    has an up-vote keyword.  Nothing is returned when the text has no
    token or no keyword. *)
Theorem vote_request_has_token_and_side (text : string) :
  match extract_vote_request text with
  | (Some token, Some side) =>
      extract_token_address text = Some token
      /\ (32 <= String.length token <= 44)%nat
      /\ all_base58 token = true
      /\ (side = true <-> asks_up text = true)
      /\ (side = false -> asks_down text = true)
  | (None, None) =>
      extract_token_address text = None
      \/ (asks_up text = false /\ asks_down text = false)
  | _ => False
  end.
Proof.
  rewrite vote_request_cases.
  destruct (extract_token_address text) as [ token | ] eqn:Htoken;
    [ | now left ].
  apply extracted_token_matched in Htoken.
  pose proof (scan_sound text 0) as Hall.
  rewrite Forall_forall in Hall. apply Hall in Htoken.
  destruct Htoken as (Hlen & Hclass & _).
  destruct (asks_up text) eqn:Hup.
  - repeat split; intros; auto; try congruence; lia.
  - destruct (asks_down text) eqn:Hdown.
    + repeat split; intros; auto; try congruence; lia.
    + now right.
Qed.

(* ================================================================= *)
(** ** [twitter.py]: the RugCheck data *)

Module Graph.

(** A node of an insider network: a dictionary with the keys ["id"],
    ["holdings"] and ["participant"], each possibly absent. *)
Record node : Type := {
  id : option string;
  holdings : option Z;
  participant : option bool
}.

(** One network of the insider graph; ["nodes"] may be absent. *)
Record network : Type := {
  nodes : option (list node)
}.

(** The dictionary [check_wallet_holdings] returns. *)
Record answer : Type := {
  found : bool;
  held : Z;
  participates : bool
}.

End Graph.

Module Rugcheck.

(** [node.get("id") == wallet_address] *)
Definition is_wallet (wallet_address : string) (node : Graph.node) : bool :=
  match Graph.id node with
  | Some i => String.eqb i wallet_address
  | None => false
  end.

(** The inner loop of [check_wallet_holdings]: the [return] of the first
    node with the wallet's id, or [None] when the loop runs out. *)
Fixpoint search_nodes (wallet_address : string) (nodes : list Graph.node)
    : option Graph.answer :=
  match nodes with
  | [] => None
  | node :: rest =>
      if is_wallet wallet_address node
      then
        let holdings := get (Graph.holdings node) 0 in
        Some {| Graph.found := true;
                Graph.held := holdings;
                Graph.participates := get (Graph.participant node) false |}
      else search_nodes wallet_address rest
  end.

(** The outer loop, over the networks. *)
Fixpoint search_networks (wallet_address : string)
    (graph_data : list Graph.network) : option Graph.answer :=
  match graph_data with
  | [] => None
  | network :: rest =>
      match search_nodes wallet_address (get (Graph.nodes network) []) with
      | Some answer => Some answer
      | None => search_networks wallet_address rest
      end
  end.

(** [check_wallet_holdings(wallet_address, graph_data)] *)
Definition check_wallet_holdings (wallet_address : string)
    (graph_data : list Graph.network) : Graph.answer :=
  match search_networks wallet_address graph_data with
  | Some answer => answer
  | None => {| Graph.found := false; Graph.held := 0;
               Graph.participates := false |}
  end.

(** What [requests.get(URL)] comes to: a connection that fails with a
    [RequestException], or a response with its status code and body. *)
Inductive outcome : Type :=
| ConnectionError
| Response (status_code : Z) (text : string).

(** [response.raise_for_status()] raises [HTTPError] on the client and
    server error codes. *)
Definition is_http_error (status_code : Z) : bool :=
  (400 <=? status_code) && (status_code <? 600).

(** The JSON object of a report summary, with the keys
    [get_tokenreport] reads. *)
Record summary : Type := {
  tokenProgram : option string;
  risks : option (list Risk.t);
  score : option Z;
  score_normalised : option Z
}.

(** The dictionary [get_tokenreport] returns. *)
Record token_report : Type := {
  token_program : string;
  report_risks : list Risk.t;
  overall_score : Z;
  normalized_score : Z
}.

(** The same dictionary, as the renderers read it: through its keys
    ["normalized_score"] and ["risks"]. *)
Definition report_data (r : token_report) : Report.t :=
  {| Report.normalized_score := Some (normalized_score r);
     Report.risks := Some (report_risks r) |}.

Section Fetch.

(** [json.loads(text)]; [None] stands for [JSONDecodeError]. *)
Variable json_loads : string -> option summary.

(** [get_tokenreport(token)], from what the request to the summary URL
    of [token] comes to.  Every [except] branch logs and returns [None];
    the logging calls are left out. *)
Definition get_tokenreport (reply : outcome) : option token_report :=
  match reply with
  | ConnectionError => None
  | Response status_code text =>
      if is_http_error status_code then None
      else
        match json_loads text with
        | None => None
        | Some res =>
            let token_program := get (tokenProgram res) "" in
            let risks := get (risks res) [] in
            let overall_score := get (score res) 0 in
            let normalized_score := get (score_normalised res) 0 in
            if (match risks with [] => true | _ => false end
                || (normalized_score =? 0))%bool
            then None
            else Some {| token_program := token_program;
                         report_risks := risks;
                         overall_score := overall_score;
                         normalized_score := normalized_score |}
        end
  end.

End Fetch.

End Rugcheck.

(* ================================================================= *)
(** ** Wallet holdings *)

Import Rugcheck.

(** The nodes of a graph, network after network. *)
Definition all_nodes (graph_data : list Graph.network) : list Graph.node :=
  flat_map (fun network => get (Graph.nodes network) []) graph_data.

Definition answer_of (node : Graph.node) : Graph.answer :=
  {| Graph.found := true;
     Graph.held := get (Graph.holdings node) 0;
     Graph.participates := get (Graph.participant node) false |}.

Lemma search_nodes_find (wallet_address : string) (nodes : list Graph.node) :
  search_nodes wallet_address nodes
  = option_map answer_of (find (is_wallet wallet_address) nodes).
Proof.
  induction nodes as [ | node rest IH ]; [ reflexivity | ].
  cbn [search_nodes find]. destruct (is_wallet wallet_address node);
    [ reflexivity | exact IH ].
Qed.

Lemma find_in_app {A} (f : A -> bool) (l1 l2 : list A) :
  find f (l1 ++ l2)
  = match find f l1 with Some x => Some x | None => find f l2 end.
Proof.
  induction l1 as [ | x l1 IH ]; [ reflexivity | ].
  cbn. destruct (f x); [ reflexivity | exact IH ].
Qed.

Lemma search_networks_find (wallet_address : string)
    (graph_data : list Graph.network) :
  search_networks wallet_address graph_data
  = option_map answer_of
      (find (is_wallet wallet_address) (all_nodes graph_data)).
Proof.
  induction graph_data as [ | network rest IH ]; [ reflexivity | ].
  cbn [search_networks all_nodes flat_map].
  rewrite find_in_app, search_nodes_find.
  destruct (find (is_wallet wallet_address)
              (get (Graph.nodes network) [])); [ reflexivity | exact IH ].
Qed.

(** [check_wallet_holdings] answers with the first node, in the order
    of the networks and of their nodes, whose id is the wallet, taking 0
    and [False] for missing holdings and participant keys; networks
    without nodes are passed over; with no such node the answer is not
    found, 0, [False]. *)
Theorem holdings_of_first_matching_node (wallet_address : string)
    (graph_data : list Graph.network) :
  check_wallet_holdings wallet_address graph_data
  = match find (is_wallet wallet_address) (all_nodes graph_data) with
    | Some node =>
        {| Graph.found := true;
           Graph.held := get (Graph.holdings node) 0;
           Graph.participates := get (Graph.participant node) false |}
    | None =>
        {| Graph.found := false; Graph.held := 0;
           Graph.participates := false |}
    end.
Proof.
  unfold check_wallet_holdings. rewrite search_networks_find.
  destruct (find (is_wallet wallet_address) (all_nodes graph_data));
    reflexivity.
Qed.

(** The wallet is reported found exactly when some network of the
    graph has a node with its id. *)
Theorem wallet_found_iff_some_node (wallet_address : string)
    (graph_data : list Graph.network) :
  Graph.found (check_wallet_holdings wallet_address graph_data) = true
  <-> exists network nodes node,
        In network graph_data
        /\ Graph.nodes network = Some nodes
        /\ In node nodes
        /\ Graph.id node = Some wallet_address.
Proof.
  rewrite holdings_of_first_matching_node.
  split.
  - destruct (find (is_wallet wallet_address) (all_nodes graph_data))
      as [ node | ] eqn:Hfind; [ intros _ | discriminate ].
    apply find_some in Hfind. destruct Hfind as (Hin & Hid).
    unfold all_nodes in Hin. apply in_flat_map in Hin.
    destruct Hin as (network & Hnet & Hnode).
    destruct (Graph.nodes network) as [ nodes | ] eqn:Hnodes;
      [ | contradiction ].
    exists network, nodes, node. repeat split; auto.
    unfold is_wallet in Hid. destruct (Graph.id node) as [ i | ];
      [ | discriminate ].
    apply String.eqb_eq in Hid. now subst.
  - intros (network & nodes & node & Hnet & Hnodes & Hnode & Hid).
    destruct (find (is_wallet wallet_address) (all_nodes graph_data))
      as [ first | ] eqn:Hfind; [ reflexivity | exfalso ].
    assert (Hin : In node (all_nodes graph_data)).
    { unfold all_nodes. apply in_flat_map. exists network.
      split; [ exact Hnet | now rewrite Hnodes ]. }
    pose proof (find_none _ _ Hfind node Hin) as Hno.
    unfold is_wallet in Hno. rewrite Hid, String.eqb_refl in Hno.
    discriminate.
Qed.

(** Searching a graph made of two lists of networks is searching the
    first list and, if the wallet is not found there, the second. *)
Theorem holdings_search_composes (wallet_address : string)
    (first_networks more_networks : list Graph.network) :
  check_wallet_holdings wallet_address (first_networks ++ more_networks)
  = if Graph.found (check_wallet_holdings wallet_address first_networks)
    then check_wallet_holdings wallet_address first_networks
    else check_wallet_holdings wallet_address more_networks.
Proof.
  rewrite !holdings_of_first_matching_node.
  unfold all_nodes. rewrite flat_map_app, find_in_app.
  destruct (find (is_wallet wallet_address)
              (flat_map (fun network => get (Graph.nodes network) [])
                        first_networks)); reflexivity.
Qed.

(* ================================================================= *)
(** ** Fetched reports *)

(** A fetched report has findings. *)
Lemma fetched_findings (json_loads : string -> option summary)
    (reply : outcome) (report : token_report) :
  get_tokenreport json_loads reply = Some report ->
  report_risks report <> [].
Proof.
  unfold get_tokenreport.
  destruct reply as [ | status_code text ]; [ discriminate | ].
  destruct (is_http_error status_code); [ discriminate | ].
  destruct (json_loads text) as [ res | ]; [ | discriminate ].
  destruct (get (risks res) []) as [ | risk rest ]; [ discriminate | ].
  destruct (get (score_normalised res) 0 =? 0); [ discriminate | ].
  intros [= <-]. discriminate.
Qed.

(** [get_tokenreport] hands over a report only for a response outside
    the error codes 400 to 599 whose body is a JSON object with a
    non-empty risks list and a non-zero normalised score; the report
    carries that list and that score. *)
Theorem fetched_report_has_findings_and_score
    (json_loads : string -> option summary) (reply : outcome)
    (report : token_report) :
  get_tokenreport json_loads reply = Some report ->
  report_risks report <> []
  /\ normalized_score report <> 0
  /\ exists status_code text res,
       reply = Response status_code text
       /\ (status_code < 400 \/ 600 <= status_code)
       /\ json_loads text = Some res
       /\ risks res = Some (report_risks report)
       /\ score_normalised res = Some (normalized_score report).
Proof.
  unfold get_tokenreport. intros Hfetched.
  destruct reply as [ | status_code text ]; [ discriminate | ].
  destruct (is_http_error status_code) eqn:Hstatus; [ discriminate | ].
  destruct (json_loads text) as [ res | ] eqn:Hjson; [ | discriminate ].
  destruct res as [program rs sc norm].
  cbn [tokenProgram risks score score_normalised] in Hfetched.
  destruct rs as [ [ | risk rest ] | ]; cbn [get orb] in Hfetched;
    try discriminate.
  destruct norm as [ norm | ]; cbn [get] in Hfetched; [ | discriminate ].
  destruct (Z.eqb_spec norm 0) as [ | Hnorm ]; [ discriminate | ].
  injection Hfetched as <-. cbn [report_risks normalized_score].
  split; [ discriminate | ]. split; [ exact Hnorm | ].
  exists status_code, text. eexists.
  split; [ reflexivity | ]. split.
  - unfold is_http_error in Hstatus. apply andb_false_iff in Hstatus.
    destruct Hstatus as [Hstatus | Hstatus];
      [ apply Z.leb_gt in Hstatus | apply Z.ltb_ge in Hstatus ]; lia.
  - split; [ exact Hjson | ]. split; reflexivity.
Qed.

Definition sample_summary : summary :=
  {| tokenProgram := None;
     risks := Some [Sample.mint_authority];
     score := Some 4200;
     score_normalised := Some 85 |}.

Definition sample_json_loads (text : string) : option summary :=
  if String.eqb text "{}" then Some sample_summary else None.

Lemma fetched_report_has_findings_and_score_witness :
  get_tokenreport sample_json_loads (Response 200 "{}")
  = Some {| token_program := ""; report_risks := [Sample.mint_authority];
            overall_score := 4200; normalized_score := 85 |}
  /\ report_risks {| token_program := "";
                     report_risks := [Sample.mint_authority];
                     overall_score := 4200; normalized_score := 85 |} <> [].
Proof.
  split; [ reflexivity | ].
  apply (fetched_report_has_findings_and_score sample_json_loads
           (Response 200 "{}")).
  reflexivity.
Defined.

(** Every report [get_tokenreport] hands over makes
    [create_report_image] raise: the call ends with the unbound [i],
    writes no file and logs the failure with its cause. *)
Theorem fetched_report_never_renders
    (json_loads : string -> option summary) (reply : outcome)
    (report : token_report) (textbbox : font -> string -> bbox)
    (wrap : string -> Z -> list string) (token_address : string)
    (w : world) :
  get_tokenreport json_loads reply = Some report ->
  let out :=
    create_report_image textbbox wrap (report_data report) token_address w in
  fst out = Raise (UnboundLocalError "i")
  /\ disk (snd out) = disk w
  /\ exists earlier,
       log (snd out)
       = (earlier ++ [{| levelname := ERROR;
                         message := "Failed to create image: ";
                         cause := Some (UnboundLocalError "i") |}])%list.
Proof.
  intros Hfetched out. subst out.
  apply fetched_findings in Hfetched. rename Hfetched into Hfindings.
  rewrite create_report_image_run.
  rewrite measure_pass_findings by exact Hfindings.
  cbn [fst snd disk log]. split; [ reflexivity | ].
  split; [ reflexivity | ].
  eexists (log w ++ _ :: _)%list.
  rewrite <- app_assoc. cbn [app]. reflexivity.
Qed.

Lemma fetched_report_never_renders_witness :
  get_tokenreport sample_json_loads (Response 200 "{}")
  = Some {| token_program := ""; report_risks := [Sample.mint_authority];
            overall_score := 4200; normalized_score := 85 |}
  /\ fst (create_report_image Sample.textbbox Sample.wrap
            (report_data
               {| token_program := "";
                  report_risks := [Sample.mint_authority];
                  overall_score := 4200; normalized_score := 85 |})
            Sample.address Sample.fresh)
     = Raise (UnboundLocalError "i").
Proof.
  split; [ reflexivity | ].
  apply (fetched_report_never_renders sample_json_loads (Response 200 "{}")
           _ Sample.textbbox Sample.wrap Sample.address Sample.fresh).
  reflexivity.
Defined.

(* ================================================================= *)
(** ** Keys the text summary needs *)

(** The three keys [create_report_text] reads with [risk[...]]. *)
Definition has_summary_keys (risk : Risk.t) : Prop :=
  Risk.name risk <> None /\ Risk.level risk <> None
  /\ Risk.value risk <> None.

Lemma row_text_keys (entry : Z * Risk.t) :
  (exists row, row_text entry = Some row) <-> has_summary_keys (snd entry).
Proof.
  destruct entry as [idx [name level value sc]].
  unfold row_text, has_summary_keys. cbn [fst snd Risk.name Risk.level
    Risk.value].
  split.
  - intros (row & Hrow).
    destruct name, level, value; try discriminate; repeat split; discriminate.
  - intros (Hname & Hlevel & Hvalue).
    destruct name, level, value; try congruence. eexists. reflexivity.
Qed.

Lemma rows_of_keys (entries : list (Z * Risk.t)) :
  Forall (fun entry => has_summary_keys (snd entry)) entries ->
  exists rows,
    Forall2 (fun entry row => row_text entry = Some row) entries rows.
Proof.
  induction 1 as [ | entry rest Hentry _ (rows & Hrows) ].
  - exists []. constructor.
  - apply row_text_keys in Hentry. destruct Hentry as (row & Hrow).
    exists (row :: rows). now constructor.
Qed.

Lemma keys_of_rows (entries : list (Z * Risk.t)) (rows : list string) :
  Forall2 (fun entry row => row_text entry = Some row) entries rows ->
  Forall (fun entry => has_summary_keys (snd entry)) entries.
Proof.
  induction 1 as [ | entry row rest rows Hrow _ IH ]; constructor; auto.
  apply row_text_keys. now exists row.
Qed.

Lemma combine_keys (indexes : list Z) (findings : list Risk.t) :
  List.length indexes = List.length findings ->
  Forall (fun entry => has_summary_keys (snd entry))
         (combine indexes findings)
  <-> Forall has_summary_keys findings.
Proof.
  revert indexes.
  induction findings as [ | risk rest IH ]; intros indexes Hlen.
  - destruct indexes; split; constructor.
  - destruct indexes as [ | i indexes ]; [ discriminate | ].
    cbn [combine]. injection Hlen as Hlen.
    split; intros Hall; inversion Hall; subst; constructor; auto;
      now apply (IH indexes).
Qed.

Lemma enumerate_keys (findings : list Risk.t) :
  Forall (fun entry => has_summary_keys (snd entry)) (enumerate findings)
  <-> Forall has_summary_keys findings.
Proof.
  unfold enumerate. apply combine_keys. rewrite range_length. lia.
Qed.

(** A summary that is computed had its keys. *)
Lemma summary_ok_keys (normalized_score : option Z)
    (findings : list Risk.t) (token_address text : string) :
  Twitter.create_report_text
    {| Report.normalized_score := normalized_score;
       Report.risks := Some findings |} token_address = Ok text ->
  Forall has_summary_keys (firstn 3 findings).
Proof.
  unfold Twitter.create_report_text.
  cbn [Report.risks Report.normalized_score item Py.bind].
  destruct (for_each Twitter.add_risk_line
              (enumerate (take 3 findings)) "") as [ risk_text | e ]
    eqn:Hrows; [ intros _ | discriminate ].
  apply summary_rows in Hrows. destruct Hrows as (rows & Hrows & _).
  apply keys_of_rows in Hrows. now apply enumerate_keys in Hrows.
Qed.

(** [create_report_text] returns a summary exactly when the report has
    its keys ["risks"] and ["normalized_score"] and each of its first
    three findings has the keys ["name"], ["level"] and ["value"];
    findings after the third may lack them.  Otherwise it raises
    [KeyError], for one of these five keys. *)
Theorem summary_needs_its_keys (report : Report.t) (token_address : string) :
  ((exists text, Twitter.create_report_text report token_address = Ok text)
   <-> exists findings normalized_score,
         Report.risks report = Some findings
         /\ Report.normalized_score report = Some normalized_score
         /\ Forall has_summary_keys (firstn 3 findings))
  /\ (forall e,
        Twitter.create_report_text report token_address = Raise e ->
        exists key,
          e = KeyError key
          /\ In key ["risks"; "name"; "level"; "value";
                     "normalized_score"]).
Proof.
  destruct report as [sc rs]. unfold Twitter.create_report_text.
  cbn [Report.risks Report.normalized_score].
  split; [ split | ].
  - intros (text & Hrun).
    destruct rs as [ findings | ]; [ | discriminate ].
    cbn [item Py.bind] in Hrun.
    destruct (for_each Twitter.add_risk_line
                (enumerate (take 3 findings)) "") as [ risk_text | e ]
      eqn:Hrows; [ | discriminate ].
    cbn [Py.bind] in Hrun.
    destruct sc as [ normalized_score | ]; [ | discriminate ].
    exists findings, normalized_score.
    split; [ reflexivity | ]. split; [ reflexivity | ].
    apply summary_rows in Hrows. destruct Hrows as (rows & Hrows & _).
    apply keys_of_rows in Hrows. now apply enumerate_keys in Hrows.
  - intros (findings & normalized_score & -> & -> & Hkeys).
    apply enumerate_keys, rows_of_keys in Hkeys.
    destruct Hkeys as (rows & Hrows).
    cbn [item Py.bind].
    change (take 3 findings) with (firstn 3 findings).
    rewrite (summary_rows_total _ _ _ Hrows). cbn [Py.bind].
    eexists. reflexivity.
  - intros e Hrun.
    destruct rs as [ findings | ];
      [ | injection Hrun as <-; exists "risks"; cbn; auto ].
    cbn [item Py.bind] in Hrun.
    assert (Hloop : forall entries risk_text e',
              for_each Twitter.add_risk_line entries risk_text = Raise e' ->
              exists key, e' = KeyError key
                          /\ In key ["name"; "level"; "value"]).
    { induction entries as [ | [idx [name level value s']] rest IH ];
        intros risk_text e' Hloop; [ discriminate | ].
      cbn [for_each] in Hloop.
      unfold Twitter.add_risk_line in Hloop at 1.
      cbn [Risk.name Risk.level Risk.value] in Hloop.
      destruct name as [ name | ];
        [ | injection Hloop as <-; exists "name"; cbn; auto ].
      destruct level as [ level | ];
        [ | injection Hloop as <-; exists "level"; cbn; auto ].
      destruct value as [ value | ];
        [ | injection Hloop as <-; exists "value"; cbn; auto ].
      cbn [item Py.bind] in Hloop. eapply IH, Hloop. }
    destruct (for_each Twitter.add_risk_line
                (enumerate (take 3 findings)) "") as [ risk_text | e0 ]
      eqn:Hrows.
    + cbn [Py.bind] in Hrun.
      destruct sc as [ normalized_score | ]; [ discriminate | ].
      injection Hrun as <-. exists "normalized_score". cbn. auto 10.
    + cbn [Py.bind] in Hrun. injection Hrun as <-.
      apply Hloop in Hrows. destruct Hrows as (key & -> & Hkey).
      exists key. split; [ reflexivity | ].
      cbn in Hkey |- *. intuition.
Qed.

(* ================================================================= *)
(** ** [twitter.py]: answering a report request *)

Module Bot.

Import Mentions Rugcheck.

(** A call of [client.create_tweet]: its [text], its [media_ids] (none
    when the argument is omitted) and [in_reply_to_tweet_id]. *)
Record tweet : Type := {
  text : string;
  media_ids : list string;
  in_reply_to_tweet_id : Z
}.

(** What can go wrong in the bot: an exception of the modelled Python
    code, or an error raised by the Twitter client. *)
Inductive failure : Type :=
| PythonError (e : exn)
| TweepyException.

Inductive run (A : Type) : Type :=
| Returns (a : A)
| Fails (f : failure).
Arguments Returns {A} a.
Arguments Fails {A} f.

(** The bot's surroundings.  [machine] is the world of the renderer;
    [http_get] is what a GET request to a URL comes to; [accepts] tells
    which tweets the Twitter API takes, and [media_id_string] the id it
    gives to an uploaded file, if it takes it; [upload_calls] lists the
    paths [api.media_upload] was called with and [tweets] the tweets
    posted, oldest first. *)
Record agent : Type := {
  machine : world;
  http_get : string -> outcome;
  media_id_string : string -> option string;
  accepts : tweet -> bool;
  upload_calls : list string;
  tweets : list tweet
}.

Definition B (A : Type) : Type := agent -> run A * agent.

Definition ret {A} (a : A) : B A := fun s => (Returns a, s).

Definition bind {A C} (c : B A) (k : A -> B C) : B C :=
  fun s =>
    match c s with
    | (Returns a, s') => k a s'
    | (Fails f, s') => (Fails f, s')
    end.

(** [try: body  except Exception as e: handler(e)] *)
Definition try_except {A} (body : B A) (handler : failure -> B A) : B A :=
  fun s =>
    match body s with
    | (Returns a, s') => (Returns a, s')
    | (Fails f, s') => handler f s'
    end.

(** A pure computation of the modelled Python code. *)
Definition lift {A} (r : result A) : B A :=
  fun s =>
    match r with
    | Ok a => (Returns a, s)
    | Raise e => (Fails (PythonError e), s)
    end.

(** A computation of the renderer, run on the bot's machine. *)
Definition on_machine {A} (c : M A) : B A :=
  fun s =>
    let '(r, w) := c (machine s) in
    let s' := {| machine := w; http_get := http_get s;
                 media_id_string := media_id_string s;
                 accepts := accepts s;
                 upload_calls := upload_calls s; tweets := tweets s |} in
    match r with
    | Ok a => (Returns a, s')
    | Raise e => (Fails (PythonError e), s')
    end.

(** [client.create_tweet(text=..., media_ids=..., in_reply_to_tweet_id=...)] *)
Definition create_tweet (t : tweet) : B unit :=
  fun s =>
    if accepts s t
    then (Returns tt,
          {| machine := machine s; http_get := http_get s;
             media_id_string := media_id_string s; accepts := accepts s;
             upload_calls := upload_calls s;
             tweets := (tweets s ++ [t])%list |})
    else (Fails TweepyException, s).

(** [api.media_upload(path).media_id_string] *)
Definition media_upload (path : string) : B string :=
  fun s =>
    let s' := {| machine := machine s; http_get := http_get s;
                 media_id_string := media_id_string s;
                 accepts := accepts s;
                 upload_calls := (upload_calls s ++ [path])%list;
                 tweets := tweets s |} in
    match media_id_string s path with
    | Some media => (Returns media, s')
    | None => (Fails TweepyException, s')
    end.

(** The URL of line 21. *)
Definition summary_url (token : string) : string :=
  "https://api.rugcheck.xyz/v1/tokens/" ++ token ++ "/report/summary".

Definition relevant_keywords : list string :=
  ["token"; "report"; "risks"; "check"; "rugcheck"; "scam"].

Section Answer.

Variable textbbox : font -> string -> bbox.
Variable wrap : string -> Z -> list string.
Variable json_loads : string -> option summary.

(** [get_tokenreport(token)] with its request. *)
Definition fetch_report (token : string) : B (option token_report) :=
  fun s => (Returns (get_tokenreport json_loads (http_get s (summary_url token))), s).

(** Lines 367-386 of [respondToTweet] (and, with the other opening
    sentence, lines 324-343): the reply to a mention for which a report
    was fetched.  The logging calls of [twitter.py] are left out. *)
Definition reply_with_report (opening reply_text : string)
    (report : token_report) (token_address : string) (mention_id : Z)
    : B unit :=
  bind (lift (Twitter.create_report_text (report_data report) token_address))
    (fun report_text =>
  let reply_text := reply_text ++ opening in
  try_except
    (bind (on_machine (create_report_image textbbox wrap (report_data report)
                         token_address))
       (fun image_path =>
     bind (media_upload image_path)
       (fun media =>
     create_tweet {| text := reply_text; media_ids := [media];
                     in_reply_to_tweet_id := mention_id |})))
    (fun e =>
       let reply_text :=
         reply_text ++ Twitter.newline ++ Twitter.newline
         ++ slice report_text None (Some 240) ++ "..." in
       create_tweet {| text := reply_text; media_ids := [];
                       in_reply_to_tweet_id := mention_id |})).

(** Lines 358-402 of [respondToTweet]: the branch for a mention that is
    neither a vote nor a wallet check.  [reply_text] is the reply so
    far, ["@username "]. *)
Definition answer_report_request (tweet_text reply_text : string)
    (mention_id : Z) : B unit :=
  try_except
    (let tweet_text_lower := lower tweet_text in
     if existsb (fun keyword => contains keyword tweet_text_lower)
                relevant_keywords
     then
       let token_address := extract_token_address tweet_text in
       match token_address with
       | Some token_address =>
           if truthy token_address
           then
             bind (fetch_report token_address)
               (fun report =>
                  match report with
                  | Some report =>
                      reply_with_report "Here's your token report:"
                        reply_text report token_address mention_id
                  | None =>
                      let reply_text :=
                        reply_text
                        ++ "Sorry, I couldn't retrieve a valid report for "
                        ++ slice token_address None (Some 6)
                        ++ "... (the token may be invalid or not supported)."
                      in
                      create_tweet {| text := reply_text; media_ids := [];
                                      in_reply_to_tweet_id := mention_id |}
                  end)
           else
             let reply_text :=
               reply_text
               ++ "I couldn't find a valid token address in your tweet. Please include a token address."
             in
             create_tweet {| text := reply_text; media_ids := [];
                             in_reply_to_tweet_id := mention_id |}
       | None =>
           let reply_text :=
             reply_text
             ++ "I couldn't find a valid token address in your tweet. Please include a token address."
           in
           create_tweet {| text := reply_text; media_ids := [];
                           in_reply_to_tweet_id := mention_id |}
       end
     else ret tt)
    (fun e => ret tt).

End Answer.

End Bot.

(* ================================================================= *)
(** ** Replies to report requests *)

Import Bot.

Section Replies.

Variable textbbox : font -> string -> bbox.
Variable wrap : string -> Z -> list string.
Variable json_loads : string -> option summary.

(** The agent after the renderer has run on its machine. *)
Definition with_machine (s : agent) (w : world) : agent :=
  {| machine := w; http_get := http_get s;
     media_id_string := media_id_string s; accepts := accepts s;
     upload_calls := upload_calls s; tweets := tweets s |}.

(** The reply without image: the opening sentence, a blank line, the
    first 240 characters of the summary and three dots. *)
Definition text_reply (opening reply_text report_text : string)
    (mention_id : Z) : tweet :=
  {| text := reply_text ++ opening ++ Twitter.newline ++ Twitter.newline
             ++ slice report_text None (Some 240) ++ "...";
     media_ids := [];
     in_reply_to_tweet_id := mention_id |}.

Lemma render_fails_on_findings (report : token_report)
    (token_address : string) (s : agent) :
  report_risks report <> [] ->
  on_machine (create_report_image textbbox wrap (report_data report)
                token_address) s
  = (Fails (PythonError (UnboundLocalError "i")),
     with_machine s
       (snd (create_report_image textbbox wrap (report_data report)
               token_address (machine s)))).
Proof.
  intros Hfindings. unfold on_machine.
  rewrite create_report_image_run.
  rewrite measure_pass_findings by exact Hfindings.
  reflexivity.
Qed.

(** With findings in the report, the reply block renders nothing,
    uploads nothing and goes for the reply without image. *)
Lemma reply_with_report_run (opening reply_text : string)
    (report : token_report) (token_address : string) (mention_id : Z)
    (s : agent) :
  report_risks report <> [] ->
  reply_with_report textbbox wrap opening reply_text report token_address
    mention_id s
  = match Twitter.create_report_text (report_data report) token_address with
    | Raise e => (Fails (PythonError e), s)
    | Ok report_text =>
        create_tweet (text_reply opening reply_text report_text mention_id)
          (with_machine s
             (snd (create_report_image textbbox wrap (report_data report)
                     token_address (machine s))))
    end.
Proof.
  intros Hfindings. unfold reply_with_report, Bot.bind at 1, Bot.lift.
  destruct (Twitter.create_report_text (report_data report) token_address)
    as [ report_text | e ]; [ | reflexivity ].
  unfold Bot.try_except, Bot.bind at 1.
  rewrite render_fails_on_findings by exact Hfindings.
  unfold text_reply. now rewrite !append_assoc.
Qed.

(** A tweet posted inside the branch: an error of the Twitter client is
    caught by the [except] of line 401. *)
Definition post_quietly (t : tweet) : B unit :=
  Bot.try_except (create_tweet t) (fun _ => Bot.ret tt).

Definition sorry_reply (reply_text token_address : string) (mention_id : Z)
    : tweet :=
  {| text := reply_text ++ "Sorry, I couldn't retrieve a valid report for "
             ++ slice token_address None (Some 6)
             ++ "... (the token may be invalid or not supported).";
     media_ids := [];
     in_reply_to_tweet_id := mention_id |}.

Definition no_token_reply (reply_text : string) (mention_id : Z) : tweet :=
  {| text := reply_text
             ++ "I couldn't find a valid token address in your tweet. Please include a token address.";
     media_ids := [];
     in_reply_to_tweet_id := mention_id |}.

(** The branch, case by case. *)
Lemma answer_report_request_run (tweet_text reply_text : string)
    (mention_id : Z) (s : agent) :
  answer_report_request textbbox wrap json_loads tweet_text reply_text
    mention_id s
  = if existsb (fun keyword => contains keyword (lower tweet_text))
               relevant_keywords
    then
      match extract_token_address tweet_text with
      | None => post_quietly (no_token_reply reply_text mention_id) s
      | Some token =>
          match get_tokenreport json_loads (http_get s (summary_url token))
          with
          | None => post_quietly (sorry_reply reply_text token mention_id) s
          | Some report =>
              match Twitter.create_report_text (report_data report) token
              with
              | Raise e => (Returns tt, s)
              | Ok report_text =>
                  post_quietly
                    (text_reply "Here's your token report:" reply_text
                       report_text mention_id)
                    (with_machine s
                       (snd (create_report_image textbbox wrap
                               (report_data report) token (machine s))))
              end
          end
      end
    else (Returns tt, s).
Proof.
  unfold answer_report_request.
  destruct (existsb _ relevant_keywords); [ | reflexivity ].
  destruct (extract_token_address tweet_text) as [ token | ] eqn:Htoken;
    [ | reflexivity ].
  apply extracted_token_matched in Htoken.
  pose proof (scan_sound tweet_text 0) as Hall.
  rewrite Forall_forall in Hall. apply Hall in Htoken.
  rewrite address_truthy by lia.
  unfold Bot.try_except at 1, Bot.bind at 1, fetch_report.
  destruct (get_tokenreport json_loads (http_get s (summary_url token)))
    as [ report | ] eqn:Hfetch; [ | reflexivity ].
  apply fetched_findings in Hfetch.
  rewrite reply_with_report_run by exact Hfetch.
  destruct (Twitter.create_report_text (report_data report) token);
    reflexivity.
Qed.

Lemma post_quietly_run (t : tweet) (s : agent) :
  post_quietly t s
  = (Returns tt,
     if accepts s t
     then {| machine := machine s; http_get := http_get s;
             media_id_string := media_id_string s; accepts := accepts s;
             upload_calls := upload_calls s;
             tweets := (tweets s ++ [t])%list |}
     else s).
Proof.
  unfold post_quietly, Bot.try_except, create_tweet.
  destruct (accepts s t); reflexivity.
Qed.

(** Whatever the mention, the services and the machine, the branch for
    report requests neither raises nor calls [api.media_upload], and it
    posts at most one tweet: a reply to the mention, without media,
    whose text starts with the reply so far. *)
Theorem report_request_posts_at_most_one_text (tweet_text reply_text : string)
    (mention_id : Z) (s : agent) :
  let out :=
    answer_report_request textbbox wrap json_loads tweet_text reply_text
      mention_id s in
  fst out = Returns tt
  /\ upload_calls (snd out) = upload_calls s
  /\ (tweets (snd out) = tweets s
      \/ exists t more,
           tweets (snd out) = (tweets s ++ [t])%list
           /\ media_ids t = []
           /\ in_reply_to_tweet_id t = mention_id
           /\ text t = reply_text ++ more).
Proof.
  intros out. subst out. rewrite answer_report_request_run.
  assert (Hpost : forall more s0,
            upload_calls s0 = upload_calls s -> tweets s0 = tweets s ->
            let out :=
              post_quietly {| text := reply_text ++ more; media_ids := [];
                              in_reply_to_tweet_id := mention_id |} s0 in
            fst out = Returns tt
            /\ upload_calls (snd out) = upload_calls s
            /\ (tweets (snd out) = tweets s
                \/ exists t more,
                     tweets (snd out) = (tweets s ++ [t])%list
                     /\ media_ids t = []
                     /\ in_reply_to_tweet_id t = mention_id
                     /\ text t = reply_text ++ more)).
  { intros more s0 Hup Htw. cbv zeta. rewrite post_quietly_run.
    destruct (accepts s0 _); cbn [fst snd upload_calls tweets].
    - split; [ reflexivity | ]. split; [ exact Hup | ].
      right. eexists _, more. rewrite Htw. repeat split.
    - split; [ reflexivity | ]. split; [ exact Hup | ]. now left. }
  destruct (existsb _ relevant_keywords);
    [ | cbn; repeat split; now left ].
  destruct (extract_token_address tweet_text) as [ token | ];
    [ | apply Hpost; reflexivity ].
  destruct (get_tokenreport json_loads (http_get s (summary_url token)))
    as [ report | ]; [ | apply Hpost; reflexivity ].
  destruct (Twitter.create_report_text (report_data report) token)
    as [ report_text | e ]; [ | cbn; repeat split; now left ].
  apply Hpost; reflexivity.
Qed.

(** A mention with a keyword and a token whose report is fetched and
    summarised is answered in text only: the opening sentence, a blank
    line, the first 240 characters of the summary and three dots, which
    is 30 characters and up to 240 of the summary after the reply so
    far.  No image is uploaded and no file is written; the tweet is
    posted if the Twitter API takes it. *)
Theorem fetched_report_is_answered_in_text (tweet_text reply_text : string)
    (mention_id : Z) (s : agent) (token : string) (report : token_report)
    (report_text : string) :
  existsb (fun keyword => contains keyword (lower tweet_text))
          relevant_keywords = true ->
  extract_token_address tweet_text = Some token ->
  get_tokenreport json_loads (http_get s (summary_url token)) = Some report ->
  Twitter.create_report_text (report_data report) token = Ok report_text ->
  let out :=
    answer_report_request textbbox wrap json_loads tweet_text reply_text
      mention_id s in
  let reply :=
    {| text := reply_text ++ "Here's your token report:"
               ++ Twitter.newline ++ Twitter.newline
               ++ slice report_text None (Some 240) ++ "...";
       media_ids := [];
       in_reply_to_tweet_id := mention_id |} in
  upload_calls (snd out) = upload_calls s
  /\ disk (machine (snd out)) = disk (machine s)
  /\ tweets (snd out)
     = (if accepts s reply then (tweets s ++ [reply])%list else tweets s)
  /\ String.length (text reply)
     = (String.length reply_text + 30
        + Nat.min 240 (String.length report_text))%nat.
Proof.
  intros Hkeyword Htoken Hfetch Htext out reply.
  assert (Hlength : String.length (text reply)
                    = (String.length reply_text + 30
                       + Nat.min 240 (String.length report_text))%nat).
  { unfold reply. cbn [text]. rewrite slice_head by lia.
    rewrite !length_app_string, substring_length, Nat.sub_0_r.
    unfold Twitter.newline. cbn [String.length].
    change (Z.to_nat 240) with 240%nat. lia. }
  subst out.
  rewrite answer_report_request_run, Hkeyword, Htoken, Hfetch, Htext.
  rewrite post_quietly_run. fold reply.
  apply fetched_findings in Hfetch. rename Hfetch into Hfindings.
  assert (Hdisk : disk (snd (create_report_image textbbox wrap
                               (report_data report) token (machine s)))
                  = disk (machine s)).
  { rewrite create_report_image_run.
    rewrite measure_pass_findings by exact Hfindings. reflexivity. }
  unfold text_reply. fold reply. cbn [with_machine accepts].
  destruct (accepts s reply);
    cbn [snd upload_calls tweets machine with_machine]; auto.
Qed.

(** When one of the first three findings of the fetched report lacks a
    key the summary reads, the [KeyError] is swallowed by the branch:
    the mention gets no reply, and nothing else changes. *)
Theorem missing_key_leaves_mention_unanswered
    (tweet_text reply_text : string) (mention_id : Z) (s : agent)
    (token : string) (report : token_report) :
  existsb (fun keyword => contains keyword (lower tweet_text))
          relevant_keywords = true ->
  extract_token_address tweet_text = Some token ->
  get_tokenreport json_loads (http_get s (summary_url token)) = Some report ->
  ~ Forall has_summary_keys (firstn 3 (report_risks report)) ->
  answer_report_request textbbox wrap json_loads tweet_text reply_text
    mention_id s
  = (Returns tt, s).
Proof.
  intros Hkeyword Htoken Hfetch Hkeys.
  rewrite answer_report_request_run, Hkeyword, Htoken, Hfetch.
  destruct (Twitter.create_report_text (report_data report) token)
    as [ report_text | e ] eqn:Htext; [ exfalso | reflexivity ].
  apply Hkeys. eapply summary_ok_keys, Htext.
Qed.

End Replies.

(** A sample agent: the fonts are installed, every request is answered
    with the body ["{}"], the Twitter API takes every tweet. *)
Definition sample_agent : agent :=
  {| machine := Sample.fresh;
     http_get := fun _ => Response 200 "{}";
     media_id_string := fun _ => Some "1";
     accepts := fun _ => true;
     upload_calls := [];
     tweets := [] |}.

Definition sample_mention : string :=
  "check So11111111111111111111111111111111111111112".

(** A loader whose report has a finding without a ["value"] key. *)
Definition keyless_finding : Risk.t :=
  {| Risk.name := Some "Low Liquidity"; Risk.level := Some "warn";
     Risk.value := None; Risk.score := Some 10 |}.

Definition keyless_json_loads (text : string) : option summary :=
  Some {| tokenProgram := None; risks := Some [keyless_finding];
          score := Some 10; score_normalised := Some 12 |}.

Lemma fetched_report_is_answered_in_text_witness :
  (existsb (fun keyword => contains keyword (lower sample_mention))
           relevant_keywords = true
   /\ extract_token_address sample_mention
      = Some "So11111111111111111111111111111111111111112")
  /\ tweets
       (snd (answer_report_request Sample.textbbox Sample.wrap
               sample_json_loads sample_mention "@alice " 77 sample_agent))
     = [ {| text := "@alice Here's your token report:"
                    ++ Twitter.newline ++ Twitter.newline
                    ++ "Token: So1111...1112" ++ Twitter.newline
                    ++ "Risk Score: 85/100 (HIGH RISK)" ++ Twitter.newline
                    ++ Twitter.newline
                    ++ "Top Risks:" ++ Twitter.newline
                    ++ "1. Mint Authority Enabled: DANGER" ++ Twitter.newline
                    ++ "...";
            media_ids := [];
            in_reply_to_tweet_id := 77 |} ].
Proof.
  split; [ split; reflexivity | ].
  apply (fetched_report_is_answered_in_text Sample.textbbox Sample.wrap
           sample_json_loads sample_mention "@alice " 77 sample_agent
           "So11111111111111111111111111111111111111112"
           {| token_program := ""; report_risks := [Sample.mint_authority];
              overall_score := 4200; normalized_score := 85 |}
           ("Token: So1111...1112" ++ Twitter.newline
            ++ "Risk Score: 85/100 (HIGH RISK)" ++ Twitter.newline
            ++ Twitter.newline
            ++ "Top Risks:" ++ Twitter.newline
            ++ "1. Mint Authority Enabled: DANGER" ++ Twitter.newline));
    reflexivity.
Defined.

Lemma missing_key_leaves_mention_unanswered_witness :
  (get_tokenreport keyless_json_loads
     (http_get sample_agent
        (summary_url "So11111111111111111111111111111111111111112"))
   = Some {| token_program := ""; report_risks := [keyless_finding];
             overall_score := 10; normalized_score := 12 |}
   /\ ~ Forall has_summary_keys (firstn 3 [keyless_finding]))
  /\ answer_report_request Sample.textbbox Sample.wrap keyless_json_loads
       sample_mention "@alice " 77 sample_agent
     = (Returns tt, sample_agent).
Proof.
  assert (Hkeys : ~ Forall has_summary_keys (firstn 3 [keyless_finding])).
  { intros Hall. inversion Hall as [ | risk rest (_ & _ & Hvalue) _ ].
    now apply Hvalue. }
  split; [ split; [ reflexivity | exact Hkeys ] | ].
  apply (missing_key_leaves_mention_unanswered Sample.textbbox Sample.wrap
           keyless_json_loads sample_mention "@alice " 77 sample_agent
           "So11111111111111111111111111111111111111112"
           {| token_program := ""; report_risks := [keyless_finding];
              overall_score := 10; normalized_score := 12 |});
    try reflexivity.
  exact Hkeys.
Defined.

(* ================================================================= *)
(** ** More on the renderer *)

Section Renders.

Variable textbbox : font -> string -> bbox.
Variable wrap : string -> Z -> list string.

(** Every call of [create_report_image] logs its start first and its
    outcome last: the success message when it returns, the error with
    its cause when it raises, the font warning in between if a font
    file is missing.  The clock and the font files are left alone, and a
    call that raises writes no file. *)
Theorem render_logs_its_outcome (report_data : Report.t)
    (token_address : string) (w : world) :
  let out := create_report_image textbbox wrap report_data token_address w in
  clock (snd out) = clock w
  /\ font_files (snd out) = font_files w
  /\ log (snd out)
     = (log w
        ++ [{| levelname := INFO;
               message := "Creating report image for token: "
                          ++ token_address;
               cause := None |}]
        ++ (if font_files w "DejaVuSans-Bold.ttf"
               && font_files w "DejaVuSans.ttf"
            then []
            else [{| levelname := WARNING;
                     message :=
                       "DejaVuSans fonts not found, using default font";
                     cause := None |}])
        ++ [match fst out with
            | Ok _ => {| levelname := INFO;
                         message := "Image saved successfully";
                         cause := None |}
            | Raise e => {| levelname := ERROR;
                            message := "Failed to create image: ";
                            cause := Some e |}
            end])%list
  /\ (forall e, fst out = Raise e -> disk (snd out) = disk w).
Proof.
  intros out. subst out. rewrite create_report_image_run. cbv zeta.
  destruct (measure_pass textbbox wrap _ _ report_data token_address)
    as [ fr | e ]; cbn [fst snd clock font_files log disk];
    (split; [ reflexivity | ]; split; [ reflexivity | ]; split;
     [ reflexivity | ]).
  - discriminate.
  - reflexivity.
Qed.

(** A score bar, wherever the draw pass draws one, starts at x = 90,
    ends at x = 1090 at the latest, is 20 pixels high and has corners of
    radius 5: it stays left of the border at x = 1190. *)
Definition bar_fits (op : draw_op) : Prop :=
  match op with
  | RoundedRectangle x0 y0 x1 y1 radius _ =>
      x0 = 90 /\ x1 <= 1090 /\ y1 - y0 = 20 /\ radius = 5
  | _ => True
  end.

Lemma name_ops_fit (f : font) (lines : list string) (y : Z) :
  Forall bar_fits (name_ops textbbox f lines y).
Proof.
  revert y. induction lines as [ | line rest IH ]; intros y; cbn;
    constructor; [ exact I | apply IH ].
Qed.

Lemma rows_ops_fit (fs : fontset) (entries : list (Z * Risk.t)) (y : Z) :
  Forall bar_fits (rows_ops textbbox wrap fs y entries).
Proof.
  revert y. induction entries as [ | entry rest IH ]; intros y;
    [ constructor | ].
  cbn [rows_ops]. apply Forall_app. split; [ | apply IH ].
  unfold row_ops. cbv zeta.
  apply Forall_app. split; [ apply name_ops_fit | ].
  constructor; [ exact I | ]. constructor; [ | constructor ].
  unfold bar_fits, content_width, width, right_margin, left_margin.
  repeat split; lia.
Qed.

Lemma disclaimer_ops_fit (fs : fontset) (lines : list string) (y : Z) :
  Forall bar_fits (disclaimer_ops textbbox fs lines y).
Proof.
  revert y. induction lines as [ | line rest IH ]; intros y; cbn;
    constructor; [ exact I | apply IH ].
Qed.

Theorem score_bars_fit (fs : fontset) (fr : frame) (final_height : Z) :
  Forall bar_fits (fst (draw_pass textbbox wrap fs fr final_height)).
Proof.
  rewrite draw_pass_run. cbn [fst]. apply Forall_app. split.
  - unfold gradient. apply Forall_forall. intros op Hop.
    apply in_map_iff in Hop. destruct Hop as (y & <- & _). exact I.
  - unfold foreground.
    repeat (apply Forall_app; split);
      auto using rows_ops_fit, disclaimer_ops_fit;
      repeat constructor.
Qed.

End Renders.

(** *** The address on display *)

(** The address the image shows is never longer than 20 characters: an
    address of more than 20 characters is shown in 15. *)
Theorem displayed_address_is_short (token_address : string) :
  (String.length (short_address token_address) <= 20)%nat
  /\ ((20 < String.length token_address)%nat ->
      String.length (short_address token_address) = 15%nat).
Proof.
  unfold short_address, len. rewrite Z.gtb_ltb.
  destruct (Z.ltb_spec 20 (Z.of_nat (String.length token_address)))
    as [Hlong | Hshort].
  - rewrite slice_head by lia.
    pose proof (slice_tail token_address 6) as Htail.
    cbn [Z.opp] in Htail. rewrite Htail by lia.
    rewrite !length_app_string, !substring_length. cbn. lia.
  - split; lia.
Qed.

Lemma no_findings_render_witness :
  get (Report.risks Sample.no_findings) [] = []
  /\ fst (create_report_image Sample.textbbox Sample.wrap Sample.no_findings
            Sample.address Sample.fresh)
     = Ok "created_image.png".
Proof.
  split; [ reflexivity | ].
  apply (no_findings_render Sample.textbbox Sample.wrap Sample.no_findings
           Sample.address Sample.fresh).
  reflexivity.
Defined.

(** One turn of the drawing loop, for a finding whose numbered name
    takes more than two lines at 55 characters: the name is wrapped
    again at 73 characters, its lines are written in the small font from
    the current offset down, and the offset moves by the small font's
    line heights, the level line and 55 pixels. *)
Theorem drawing_loop_rewraps_long_name (textbbox : font -> string -> bbox)
    (wrap : string -> Z -> list string) (fs : fontset)
    (canvas : list draw_op) (i y : Z) (risk : Risk.t) :
  let numbered :=
    str (i + 1) ++ ". " ++ get (Risk.name risk) "Unknown Risk" in
  (2 < List.length (wrap numbered 55%Z))%nat ->
  exists level_and_bar,
    draw_risk textbbox wrap fs (canvas, y) (i, risk)
    = ((canvas
        ++ name_ops textbbox (small_font fs) (wrap numbered 73) y
        ++ level_and_bar)%list,
       add_line_heights textbbox (small_font fs) (wrap numbered 73) y
       + (text_height textbbox (normal_font fs)
            (level_line (upper (get (Risk.level risk) "unknown"))
                        (get (Risk.value risk) "")) + 5)
       + 55)
    /\ List.length level_and_bar = 2%nat.
Proof.
  intros numbered Hlong.
  rewrite draw_risk_run. unfold row_ops, row_end. cbn [fst snd].
  rewrite long_name_rewrapped by exact Hlong. cbn [fst snd].
  eexists. split; reflexivity.
Qed.

Lemma drawing_loop_rewraps_long_name_witness :
  (2 < List.length (Sample.wrap ("1. " ++ Sample.long_name) 55%Z))%nat
  /\ snd (draw_risk Sample.textbbox Sample.wrap dejavu ([], 400)
            (0, Sample.long_finding))
     = 400 + (20 + 5) + (20 + 5) + (28 + 5) + 55.
Proof.
  split; [ vm_compute; lia | ].
  destruct (drawing_loop_rewraps_long_name Sample.textbbox Sample.wrap
              dejavu [] 0 400 Sample.long_finding) as (rest & Hrun & _).
  - vm_compute. lia.
  - rewrite Hrun. reflexivity.
Defined.
